(** * Hareram.ai: the view handlers of [App.tsx] and the adapters of
    [services/geminiService.ts]

    Conventions of the embedding.

    - A React component is the record of its [useState] and [useRef] cells,
      and each setter is a function on that record, so that a handler reads
      like its source.  React renders between two events, so a handler finds
      the cells as the handler before it left them.
    - A handler takes the [World] (the trace of the outward calls made so
      far, and the number of the next object the platform will create) and
      the record, and gives both back.  What the vendor and the platform
      answer is an argument: a [Vendor], an [Env], or the reply itself.
    - An [async] handler is followed to its end in one go; the chat handler,
      where the time between a request and its reply matters, is split at
      its [await].
    - A call that can reject or raise gives a [result]; a handler that can
      raise half-way gives back the cells it had written and the error.
    - A loop that need not end takes fuel and gives [None] when the fuel is
      spent before the loop is.
    - JavaScript strings are [string]s whose characters are code units below
      256; times of the Web Audio clock, which are doubles, are rationals. *)

From Stdlib Require Import Bool Arith List String Ascii ZArith QArith Qminmax Lia.
Import ListNotations.
Close Scope Q_scope.
Open Scope string_scope.
Open Scope list_scope.

Set Implicit Arguments.

(** ** JavaScript values *)

Module Js.

(** What a [throw] carries: the code only ever reads [e.message]. *)
Record Error := { message : option string }.

Definition mkError (m : string) : Error := {| message := Some m |}.

(** Reading a property of [undefined], as in [undefined[0]]. *)
Definition TypeError : Error :=
  mkError "Cannot read properties of undefined".

(** The outcome of a call: the value it returns or the error it throws
    (for an async function: resolves with or rejects with). *)
Inductive result (A : Type) : Type :=
| Ok (a : A)
| Throw (e : Error).
Arguments Throw {A} e.

Definition bind {A B} (r : result A) (k : A -> result B) : result B :=
  match r with
  | Ok a => k a
  | Throw e => Throw e
  end.

(** Truthiness of a string: every string but the empty one. *)
Definition truthy (s : string) : bool :=
  match s with EmptyString => false | String _ _ => true end.

(** Truthiness of [string | undefined]. *)
Definition truthy_opt (s : option string) : bool :=
  match s with Some s => truthy s | None => false end.

(** String conversion inside a template literal or under [+=]. *)
Definition to_string (s : option string) : string :=
  match s with Some s => s | None => "undefined" end.

(** White space and line terminators that [String.prototype.trim] strips
    (the ones below 256): TAB, LF, VT, FF, CR, SP and NBSP. *)
Definition is_white_space (c : ascii) : bool :=
  let n := nat_of_ascii c in
  (((9 <=? n) && (n <=? 13)) || (n =? 32) || (n =? 160))%nat.

Fixpoint trim_start (s : string) : string :=
  match s with
  | EmptyString => EmptyString
  | String c r => if is_white_space c then trim_start r else s
  end.

Fixpoint rev_string (acc s : string) : string :=
  match s with
  | EmptyString => acc
  | String c r => rev_string (String c acc) r
  end.

Definition trim_end (s : string) : string :=
  rev_string "" (trim_start (rev_string "" s)).

(** [s.trim()] *)
Definition trim (s : string) : string := trim_end (trim_start s).

(** [!s.trim()] *)
Definition blank (s : string) : bool := negb (truthy (trim s)).

(** [s.includes(pat)] *)
Fixpoint includes (pat s : string) : bool :=
  prefix pat s ||
  match s with
  | EmptyString => false
  | String _ r => includes pat r
  end.

End Js.

Import Js.

(** ** The vendor SDK, as far as the code reads and writes it

    [@google/genai] is not part of the repository.  Its replies are records
    of optional fields, since every field the code reads may be absent; its
    requests are the object literals the adapters build. *)

Module Genai.

Record Blob := { data : option string; mimeType : option string }.

Record Part := { inlineData : option Blob; partText : option string }.

Record Content := { parts : option (list Part) }.

(** [groundingChunks] stands for [groundingMetadata?.groundingChunks]; a
    chunk is kept as the URI it cites. *)
Record Candidate := {
  content : option Content;
  groundingChunks : option (list string)
}.

Record GenerateContentResponse := {
  text : option string;
  candidates : option (list Candidate)
}.

Inductive Modality := IMAGE | AUDIO.

Inductive Tool := googleSearch | googleMaps.

Record LatLng := { latitude : Q; longitude : Q }.

Record Config := {
  systemInstruction : option string;
  thinkingBudget : option Z;
  tools : option (list Tool);
  toolConfig : option LatLng;      (* toolConfig.retrievalConfig.latLng *)
  responseModalities : option (list Modality);
  voiceName : option string        (* speechConfig...prebuiltVoiceConfig *)
}.

Definition emptyConfig : Config :=
  {| systemInstruction := None; thinkingBudget := None; tools := None;
     toolConfig := None; responseModalities := None; voiceName := None |}.

Inductive RequestPart :=
| TextPart (t : string)
| InlinePart (bytes mime : string).

Record GenerateContentRequest := {
  model : string;
  contents : list RequestPart;
  config : Config
}.

Record GenerateImagesRequest := {
  imagesModel : string;
  imagesPrompt : string;
  numberOfImages : nat;
  outputMimeType : string;
  imagesAspectRatio : string
}.

Record GeneratedImage := { imageBytes : option string }.

Record GenerateImagesResponse := { generatedImages : list GeneratedImage }.

Inductive AspectRatio := Landscape (* '16:9' *) | Portrait (* '9:16' *).

Record GenerateVideosRequest := {
  videosModel : string;
  videosPrompt : string;
  videosImage : string * string;   (* imageBytes, mimeType *)
  numberOfVideos : nat;
  resolution : string;
  videosAspectRatio : AspectRatio
}.

(** [types.ts]: an operation handle.  [response] is the list
    [response.generatedVideos] when the handle has one; a video is kept as
    its [video.uri], the empty string standing for an absent one (both are
    falsy, and the code only tests the URI for truth). *)
Record VeoOperation := {
  name : string;
  done : bool;
  response : option (list string)
}.

(** A streamed reply: the chunks the async iterator yields, and whether it
    then ends or throws. *)
Record Stream := {
  chunks : list GenerateContentResponse;
  failure : option Error
}.

(** The calls that reach the vendor, as the call log records them. *)
Inductive Call :=
| GenerateContent (r : GenerateContentRequest)
| GenerateImages (r : GenerateImagesRequest)
| GenerateVideos (r : GenerateVideosRequest)
| GetVideosOperation (op : VeoOperation)
| SendMessageStream (message : string).

(** The vendor: what each call answers.  [getVideosOperation] is asked many
    times for one handle, so its answer may depend on how many refreshes
    came before. *)
Record Vendor := {
  generateContent : GenerateContentRequest -> result GenerateContentResponse;
  generateImages : GenerateImagesRequest -> result GenerateImagesResponse;
  generateVideos : GenerateVideosRequest -> result VeoOperation;
  getVideosOperation : nat -> VeoOperation -> result VeoOperation;
  sendMessageStream : string -> result Stream
}.

End Genai.

(** ** [types.ts] *)

Module Types.

Inductive Role := user | model.

Record ChatMessage := { role : Role; content : string }.

End Types.

(** ** [services/geminiService.ts] *)

Module Service.
Import Genai.

(** [l[0]], which is [undefined] on an empty array. *)
Definition first {A} (l : list A) : option A :=
  match l with [] => None | x :: _ => Some x end.

(** [generateText]: the request built from the toggles and the position. *)
Definition generateText_request (prompt : string)
    (useThinking useSearch useMaps : bool) (currentPosition : option LatLng)
    : GenerateContentRequest :=
  let modelName :=
    if useThinking then "gemini-2.5-pro" else "gemini-2.5-flash-lite" in
  let tools0 : list Tool := [] in
  let tools1 := if useSearch then tools0 ++ [googleSearch] else tools0 in
  let tools2 := if useMaps then tools1 ++ [googleMaps] else tools1 in
  {| model := modelName;
     contents := [TextPart prompt];
     config :=
       {| systemInstruction := None;
          thinkingBudget := if useThinking then Some 32768%Z else None;
          tools := if (0 <? List.length tools2)%nat then Some tools2 else None;
          toolConfig :=
            match useMaps, currentPosition with
            | true, Some pos =>
                Some {| latitude := latitude pos; longitude := longitude pos |}
            | _, _ => None
            end;
          responseModalities := None;
          voiceName := None |} |}.

Definition generateText (v : Vendor) (prompt : string)
    (useThinking useSearch useMaps : bool) (currentPosition : option LatLng)
    : result GenerateContentResponse :=
  generateContent v
    (generateText_request prompt useThinking useSearch useMaps currentPosition).

Definition generateImage_request (prompt aspectRatio : string)
    : GenerateImagesRequest :=
  {| imagesModel := "imagen-4.0-generate-001";
     imagesPrompt := prompt;
     numberOfImages := 1;
     outputMimeType := "image/jpeg";
     imagesAspectRatio := aspectRatio |}.

Definition generateImage (v : Vendor) (prompt aspectRatio : string)
    : result string :=
  bind (generateImages v (generateImage_request prompt aspectRatio))
    (fun response =>
       match first (generatedImages response) with
       | None => Throw TypeError
       | Some img =>
           Ok ("data:image/jpeg;base64," ++ to_string (imageBytes img))%string
       end).

Definition analyzeImage_request (prompt imageBase64 mimeType : string)
    : GenerateContentRequest :=
  {| model := "gemini-2.5-flash";
     contents := [TextPart prompt; InlinePart imageBase64 mimeType];
     config := emptyConfig |}.

Definition analyzeImage (v : Vendor) (prompt imageBase64 mimeType : string)
    : result (option string) :=
  bind (generateContent v (analyzeImage_request prompt imageBase64 mimeType))
    (fun response => Ok (text response)).

Definition editImage_request (prompt imageBase64 mimeType : string)
    : GenerateContentRequest :=
  {| model := "gemini-2.5-flash-image";
     contents := [InlinePart imageBase64 mimeType; TextPart prompt];
     config :=
       {| systemInstruction := None; thinkingBudget := None; tools := None;
          toolConfig := None; responseModalities := Some [IMAGE];
          voiceName := None |} |}.

(** The [for ... of] loop of [editImage]: the first part that carries
    inline data is returned as a data URI. *)
Fixpoint editImage_loop (ps : list Part) : result string :=
  match ps with
  | [] => Throw (mkError "No image generated")
  | part :: rest =>
      match inlineData part with
      | Some blob =>
          Ok ("data:" ++ to_string (Genai.mimeType blob) ++ ";base64,"
                ++ to_string (data blob))%string
      | None => editImage_loop rest
      end
  end.

(** [response.candidates[0].content.parts], read without any [?.]: each
    absent link raises a [TypeError]. *)
Definition editImage_extract (response : GenerateContentResponse)
    : result string :=
  match candidates response with
  | None => Throw TypeError
  | Some cs =>
      match first cs with
      | None => Throw TypeError
      | Some c =>
          match content c with
          | None => Throw TypeError
          | Some ct =>
              match parts ct with
              | None => Throw TypeError
              | Some ps => editImage_loop ps
              end
          end
      end
  end.

Definition editImage (v : Vendor) (prompt imageBase64 mimeType : string)
    : result string :=
  bind (generateContent v (editImage_request prompt imageBase64 mimeType))
    editImage_extract.

Definition generateVideo_request (prompt imageBase64 mimeType : string)
    (aspectRatio : AspectRatio) : GenerateVideosRequest :=
  {| videosModel := "veo-3.1-fast-generate-preview";
     videosPrompt := prompt;
     videosImage := (imageBase64, mimeType);
     numberOfVideos := 1;
     resolution := "720p";
     videosAspectRatio := aspectRatio |}.

Definition generateVideo (v : Vendor) (prompt imageBase64 mimeType : string)
    (aspectRatio : AspectRatio) : result VeoOperation :=
  generateVideos v (generateVideo_request prompt imageBase64 mimeType aspectRatio).

(** [checkVideoOperation], at the [n]-th refresh of a polling loop. *)
Definition checkVideoOperation (v : Vendor) (n : nat) (operation : VeoOperation)
    : result VeoOperation :=
  getVideosOperation v n operation.

Definition generateSpeech_request (text : string) : GenerateContentRequest :=
  {| model := "gemini-2.5-flash-preview-tts";
     contents := [TextPart text];
     config :=
       {| systemInstruction := None; thinkingBudget := None; tools := None;
          toolConfig := None; responseModalities := Some [AUDIO];
          voiceName := Some "Kore" |} |}.

(** [response.candidates?.[0]?.content?.parts?.[0]?.inlineData?.data] *)
Definition generateSpeech_audio (response : GenerateContentResponse)
    : option string :=
  match candidates response with
  | None => None
  | Some cs =>
      match first cs with
      | None => None
      | Some c =>
          match content c with
          | None => None
          | Some ct =>
              match parts ct with
              | None => None
              | Some ps =>
                  match first ps with
                  | None => None
                  | Some p =>
                      match inlineData p with
                      | None => None
                      | Some blob => data blob
                      end
                  end
              end
          end
      end
  end.

Definition generateSpeech_extract (response : GenerateContentResponse)
    : result string :=
  match generateSpeech_audio response with
  | Some base64Audio =>
      if truthy base64Audio then Ok base64Audio
      else Throw (mkError "No audio data returned from API")
  | None => Throw (mkError "No audio data returned from API")
  end.

Definition generateSpeech (v : Vendor) (text : string) : result string :=
  bind (generateContent v (generateSpeech_request text)) generateSpeech_extract.


End Service.

(** ** The browser platform

    Every outward call a handler makes is recorded, in order, in the trace
    of the [World]; objects the platform creates (streams, audio contexts,
    nodes, sessions) are numbered from [nextId]. *)

Module Platform.

Record File := { fileName : string; fileType : string }.

(** An [AudioBuffer]: [duration] is [length / sampleRate] seconds. *)
Record AudioBuffer := { length : N; sampleRate : positive }.

Definition duration (b : AudioBuffer) : Q := Z.of_N (length b) # sampleRate b.

Inductive Effect :=
| VendorCall (c : Genai.Call)
| GetCurrentPosition
| Fetch (url : string)
| GetUserMedia (stream : nat)
| StopTracks (stream : nat)          (* stream.getTracks().forEach(t => t.stop()) *)
| NewAudioContext (ctx : nat) (rate : N)
| CloseContext (ctx : nat)
| LiveConnect (session : nat)
| CloseSession (session : nat)
| CreateMediaStreamSource (ctx stream node : nat)
| CreateScriptProcessor (ctx node : nat)
| ConnectNode (node : nat) (target : option nat)   (* None: ctx.destination *)
| DisconnectNode (node : nat)
| CreateBufferSource (ctx source : nat)
| StartSource (source : nat) (when : option Q)
| StopSource (source : nat).

Record World := { nextId : nat; trace : list Effect }.

Definition emit (e : Effect) (w : World) : World :=
  {| nextId := nextId w; trace := trace w ++ [e] |}.

Definition emits (es : list Effect) (w : World) : World :=
  {| nextId := nextId w; trace := trace w ++ es |}.

(** A new platform object: its number, and the world after it. *)
Definition alloc (w : World) : nat * World :=
  (nextId w, {| nextId := S (nextId w); trace := trace w |}).

(** What the repository's [utils/helpers] and the browser answer; none of it
    is part of the sources at hand.
    - [fileToBase64 f] reads a picked file;
    - [decodeAudio s] is [decodeAudioData(decode(s), ctx, 24000, 1)];
    - [fetchBlob url] is [fetch(url)], [.blob()] and [URL.createObjectURL];
    - [API_KEY] is [process.env.API_KEY]. *)
Record Env := {
  fileToBase64 : File -> result string;
  decodeAudio : string -> result AudioBuffer;
  fetchBlob : string -> result string;
  API_KEY : option string
}.





End Platform.

(** ** [Chatbot] *)

Module Chatbot.
Import Genai Types Platform.

Record State := {
  chat : option string;          (* the chat object, by its system instruction *)
  messages : list ChatMessage;
  input : string;
  isLoading : bool
}.

Definition initial : State :=
  {| chat := None; messages := []; input := ""; isLoading := false |}.

Definition setChat (c : option string) (st : State) : State :=
  {| chat := c; messages := messages st; input := input st;
     isLoading := isLoading st |}.

Definition setMessages (m : list ChatMessage) (st : State) : State :=
  {| chat := chat st; messages := m; input := input st;
     isLoading := isLoading st |}.

Definition setInput (s : string) (st : State) : State :=
  {| chat := chat st; messages := messages st; input := s;
     isLoading := isLoading st |}.

Definition setIsLoading (b : bool) (st : State) : State :=
  {| chat := chat st; messages := messages st; input := input st;
     isLoading := b |}.

(** The mount effect: [setChat(api.createChat(...))]. *)
Definition mount (st : State) : State :=
  setChat (Some "You are Hareram, a helpful AI assistant.") st.

Definition errorMessage : ChatMessage :=
  {| role := model; content := "Sorry, I encountered an error." |}.

(** [if (!input.trim() || !chat || isLoading) return;] *)
Definition rejected (st : State) : bool :=
  blank (input st)
  || match chat st with None => true | Some _ => false end
  || isLoading st.

(** [handleSend] up to its first [await]: the three state updates, then the
    call of [chat.sendMessageStream] with the input the handler was created
    with.  The result carries the message sent, or [None] when the handler
    returned at its guard. *)
Definition handleSend_begin (w : World) (st : State)
    : State * World * option string :=
  if rejected st then (st, w, None)
  else
    let message := input st in
    let userMessage := {| role := user; content := message |} in
    let st := setMessages (messages st ++ [userMessage]) st in
    let st := setInput "" st in
    let st := setIsLoading true st in
    (st, emit (VendorCall (SendMessageStream message)) w, Some message).

(** The updater [newMessages[newMessages.length - 1].content = modelResponse]:
    on an empty array the read of [.content] raises. *)
Fixpoint set_last_content (modelResponse : string) (prev : list ChatMessage)
    : result (list ChatMessage) :=
  match prev with
  | [] => Throw TypeError
  | m :: rest =>
      match rest with
      | [] => Ok [{| role := role m; content := modelResponse |}]
      | _ :: _ =>
          bind (set_last_content modelResponse rest) (fun r => Ok (m :: r))
      end
  end.

(** The [for await] loop over the chunks that arrive. *)
Fixpoint stream_loop (cs : list GenerateContentResponse)
    (modelResponse : string) (msgs : list ChatMessage)
    : result (list ChatMessage) :=
  match cs with
  | [] => Ok msgs
  | chunk :: rest =>
      let modelResponse' := (modelResponse ++ to_string (text chunk))%string in
      bind (set_last_content modelResponse' msgs)
           (stream_loop rest modelResponse')
  end.

(** [handleSend] from the reply of [sendMessageStream] on: the [try] body,
    the [catch] and the [finally].  [Throw] means that an updater raised
    while React applied it. *)
Definition handleSend_resume (reply : result Stream) (st : State)
    : result State :=
  let catch (msgs : list ChatMessage) := msgs ++ [errorMessage] in
  bind
    match reply with
    | Throw _ => Ok (catch (messages st))
    | Ok stream =>
        bind (stream_loop (chunks stream) ""
                (messages st ++ [{| role := model; content := "" |}]))
          (fun msgs =>
             match failure stream with
             | Some _ => Ok (catch msgs)
             | None => Ok msgs
             end)
    end
    (fun msgs => Ok (setIsLoading false (setMessages msgs st))).


(** The component with the requests it has sent and not yet seen settle. *)
Record System := {
  ui : State;
  world : World;
  inflight : list string
}.

Inductive Event :=
| Mount
| Typing (s : string)
| Send
| Settle (reply : result Stream).

Definition step (e : Event) (s : System) : result System :=
  match e with
  | Mount => Ok {| ui := mount (ui s); world := world s; inflight := inflight s |}
  | Typing t =>
      Ok {| ui := setInput t (ui s); world := world s; inflight := inflight s |}
  | Send =>
      match handleSend_begin (world s) (ui s) with
      | (st, w, None) => Ok {| ui := st; world := w; inflight := inflight s |}
      | (st, w, Some m) =>
          Ok {| ui := st; world := w; inflight := inflight s ++ [m] |}
      end
  | Settle reply =>
      match inflight s with
      | [] => Ok s
      | _ :: rest =>
          bind (handleSend_resume reply (ui s))
               (fun st => Ok {| ui := st; world := world s; inflight := rest |})
      end
  end.

Fixpoint run (es : list Event) (s : System) : result System :=
  match es with
  | [] => Ok s
  | e :: rest => bind (step e s) (run rest)
  end.

Definition boot : System :=
  {| ui := initial; world := {| nextId := 0; trace := [] |}; inflight := [] |}.

(** The text of the model message a reply leaves behind: what
    [modelResponse += chunk.text] has built up, a chunk without text
    counting as the string it is converted to. *)
Definition streamed_text (cs : list GenerateContentResponse) : string :=
  fold_left (fun acc chunk => (acc ++ to_string (text chunk))%string) cs "".

(** The messages a reply adds once it has settled. *)
Definition reply_messages (reply : result Stream) : list ChatMessage :=
  match reply with
  | Throw _ => [errorMessage]
  | Ok stream =>
      {| role := model; content := streamed_text (chunks stream) |} ::
      match failure stream with
      | Some _ => [errorMessage]
      | None => []
      end
  end.

(** What one accepted submission adds to the conversation. *)
Definition transcript (message : string) (reply : result Stream)
    : list ChatMessage :=
  {| role := user; content := message |} :: reply_messages reply.

(** The bookkeeping is tidy: at most one request is unsettled, and none is
    unless the spinner shows. *)
Definition tidy (s : System) : bool :=
  (List.length (inflight s) <=? 1)%nat
  && (isLoading (ui s) || match inflight s with [] => true | _ :: _ => false end).

(** A session: the user types, sends, and the reply settles, one submission
    after the other. *)
Fixpoint session (subs : list (string * result Stream)) (w : World)
    (st : State) : result (State * World) :=
  match subs with
  | [] => Ok (st, w)
  | (typed, reply) :: rest =>
      match handleSend_begin w (setInput typed st) with
      | (st1, w1, None) => session rest w1 st1
      | (st1, w1, Some _) =>
          bind (handleSend_resume reply st1) (session rest w1)
      end
  end.

Fixpoint session_transcript (subs : list (string * result Stream))
    : list ChatMessage :=
  match subs with
  | [] => []
  | (typed, reply) :: rest =>
      (if blank typed then [] else transcript typed reply)
        ++ session_transcript rest
  end.

(** Roles in strict alternation, starting with [r]. *)
Fixpoint alternates (r : Role) (l : list ChatMessage) : bool :=
  match l with
  | [] => true
  | m :: rest =>
      match r, role m with
      | user, user => alternates model rest
      | model, model => alternates user rest
      | _, _ => false
      end
  end.

End Chatbot.

(** ** [TextGenerator] *)

Module TextGenerator.
Import Genai Platform.

Record State := {
  prompt : string;
  response : option string;
  isLoading : bool;
  useThinking : bool;
  useSearch : bool;
  useMaps : bool;
  groundingChunks : list string;
  error : string;
  position : option LatLng        (* the coords of the GeolocationPosition *)
}.

Definition initial : State :=
  {| prompt := ""; response := Some ""; isLoading := false;
     useThinking := false; useSearch := false; useMaps := false;
     groundingChunks := []; error := ""; position := None |}.

Definition setPrompt (s : string) (st : State) : State :=
  {| prompt := s; response := response st; isLoading := isLoading st;
     useThinking := useThinking st; useSearch := useSearch st;
     useMaps := useMaps st; groundingChunks := groundingChunks st;
     error := error st; position := position st |}.

Definition setResponse (r : option string) (st : State) : State :=
  {| prompt := prompt st; response := r; isLoading := isLoading st;
     useThinking := useThinking st; useSearch := useSearch st;
     useMaps := useMaps st; groundingChunks := groundingChunks st;
     error := error st; position := position st |}.

Definition setIsLoading (b : bool) (st : State) : State :=
  {| prompt := prompt st; response := response st; isLoading := b;
     useThinking := useThinking st; useSearch := useSearch st;
     useMaps := useMaps st; groundingChunks := groundingChunks st;
     error := error st; position := position st |}.

Definition setGroundingChunks (g : list string) (st : State) : State :=
  {| prompt := prompt st; response := response st; isLoading := isLoading st;
     useThinking := useThinking st; useSearch := useSearch st;
     useMaps := useMaps st; groundingChunks := g;
     error := error st; position := position st |}.

Definition setError (e : string) (st : State) : State :=
  {| prompt := prompt st; response := response st; isLoading := isLoading st;
     useThinking := useThinking st; useSearch := useSearch st;
     useMaps := useMaps st; groundingChunks := groundingChunks st;
     error := e; position := position st |}.

Definition setPosition (p : option LatLng) (st : State) : State :=
  {| prompt := prompt st; response := response st; isLoading := isLoading st;
     useThinking := useThinking st; useSearch := useSearch st;
     useMaps := useMaps st; groundingChunks := groundingChunks st;
     error := error st; position := p |}.

Definition locationError : string :=
  "Could not get location for Maps. Please grant permission.".

(** The body of the effect that depends on [useMaps] and [position]. *)
Definition locationEffect (w : World) (st : State) : World :=
  match useMaps st, position st with
  | true, None => emit GetCurrentPosition w
  | _, _ => w
  end.

(** The Maps checkbox: [setUseMaps(e.target.checked)]; the effect runs when
    the value changed. *)
Definition setUseMaps (b : bool) (w : World) (st : State) : State * World :=
  let st' :=
    {| prompt := prompt st; response := response st; isLoading := isLoading st;
       useThinking := useThinking st; useSearch := useSearch st;
       useMaps := b; groundingChunks := groundingChunks st;
       error := error st; position := position st |} in
  if Bool.eqb b (useMaps st) then (st', w) else (st', locationEffect w st').

(** The success callback of [getCurrentPosition]: [setPosition(pos)], after
    which the effect runs again. *)
Definition onPosition (pos : LatLng) (w : World) (st : State) : State * World :=
  let st' := setPosition (Some pos) st in
  (st', locationEffect w st').

(** The error callback of [getCurrentPosition]. *)
Definition onPositionError (st : State) : State := setError locationError st.

(** [result.candidates?.[0]?.groundingMetadata?.groundingChunks || []] *)
Definition chunks_of (r : GenerateContentResponse) : list string :=
  match candidates r with
  | None => []
  | Some cs =>
      match Service.first cs with
      | None => []
      | Some c =>
          match Genai.groundingChunks c with
          | None => []
          | Some l => l
          end
      end
  end.

Definition handleSubmit (v : Vendor) (w : World) (st : State) : State * World :=
  if blank (prompt st) then (st, w)
  else
    let st := setIsLoading true st in
    let st := setResponse (Some "") st in
    let st := setGroundingChunks [] st in
    let st := setError "" st in
    let request :=
      Service.generateText_request (prompt st) (useThinking st) (useSearch st)
        (useMaps st) (position st) in
    let w := emit (VendorCall (GenerateContent request)) w in
    let st :=
      match Service.generateText v (prompt st) (useThinking st) (useSearch st)
              (useMaps st) (position st) with
      | Ok result =>
          let st := setResponse (text result) st in
          setGroundingChunks (chunks_of result) st
      | Throw _ => setError "Failed to generate text. Please try again." st
      end in
    (setIsLoading false st, w).

Inductive Event :=
| SetPrompt (s : string)
| SetUseMaps (b : bool)
| PositionFound (pos : LatLng)
| PositionDenied
| Submit.

Definition step (v : Vendor) (e : Event) (s : State * World) : State * World :=
  let (st, w) := s in
  match e with
  | SetPrompt p => (setPrompt p st, w)
  | SetUseMaps b => setUseMaps b w st
  | PositionFound pos => onPosition pos w st
  | PositionDenied => (onPositionError st, w)
  | Submit => handleSubmit v w st
  end.

Definition run (v : Vendor) (es : list Event) (s : State * World)
    : State * World :=
  fold_left (fun s e => step v e s) es s.

Definition is_found (e : Event) : bool :=
  match e with PositionFound _ => true | _ => false end.


End TextGenerator.

(** ** [ImageGenerator] *)

Module ImageGenerator.
Import Genai Platform.

Record State := {
  prompt : string;
  aspectRatio : string;
  imageUrl : string;
  isLoading : bool;
  error : string
}.

Definition setPrompt (p : string) (st : State) : State :=
  {| prompt := p; aspectRatio := aspectRatio st; imageUrl := imageUrl st;
     isLoading := isLoading st; error := error st |}.

Definition setImageUrl (u : string) (st : State) : State :=
  {| prompt := prompt st; aspectRatio := aspectRatio st; imageUrl := u;
     isLoading := isLoading st; error := error st |}.

Definition setIsLoading (b : bool) (st : State) : State :=
  {| prompt := prompt st; aspectRatio := aspectRatio st;
     imageUrl := imageUrl st; isLoading := b; error := error st |}.

Definition setError (e : string) (st : State) : State :=
  {| prompt := prompt st; aspectRatio := aspectRatio st;
     imageUrl := imageUrl st; isLoading := isLoading st; error := e |}.

Definition initial : State :=
  {| prompt := ""; aspectRatio := "1:1"; imageUrl := ""; isLoading := false;
     error := "" |}.

Definition handleSubmit (v : Vendor) (w : World) (st : State) : State * World :=
  if blank (prompt st) then (st, w)
  else
    let st := setIsLoading true st in
    let st := setImageUrl "" st in
    let st := setError "" st in
    let w :=
      emit (VendorCall (GenerateImages
              (Service.generateImage_request (prompt st) (aspectRatio st)))) w in
    let st :=
      match Service.generateImage v (prompt st) (aspectRatio st) with
      | Ok url => setImageUrl url st
      | Throw _ => setError "Failed to generate image. Please try again." st
      end in
    (setIsLoading false st, w).

End ImageGenerator.

(** ** [ImageEditor] *)

Module ImageEditor.
Import Genai Platform.

Record State := {
  prompt : string;
  originalImage : option File;
  originalImageUrl : string;
  editedImageUrl : string;
  isLoading : bool;
  error : string
}.

Definition setPrompt (p : string) (st : State) : State :=
  {| prompt := p; originalImage := originalImage st;
     originalImageUrl := originalImageUrl st;
     editedImageUrl := editedImageUrl st; isLoading := isLoading st;
     error := error st |}.

Definition setEditedImageUrl (u : string) (st : State) : State :=
  {| prompt := prompt st; originalImage := originalImage st;
     originalImageUrl := originalImageUrl st; editedImageUrl := u;
     isLoading := isLoading st; error := error st |}.

Definition setIsLoading (b : bool) (st : State) : State :=
  {| prompt := prompt st; originalImage := originalImage st;
     originalImageUrl := originalImageUrl st;
     editedImageUrl := editedImageUrl st; isLoading := b; error := error st |}.

Definition setError (e : string) (st : State) : State :=
  {| prompt := prompt st; originalImage := originalImage st;
     originalImageUrl := originalImageUrl st;
     editedImageUrl := editedImageUrl st; isLoading := isLoading st;
     error := e |}.

Definition initial : State :=
  {| prompt := ""; originalImage := None; originalImageUrl := "";
     editedImageUrl := ""; isLoading := false; error := "" |}.

(** The [try] block: its state, its calls, and whether it raised. *)
Definition attempt (env : Env) (v : Vendor) (file : File) (w : World)
    (st : State) : result State * World :=
  match fileToBase64 env file with
  | Throw e => (Throw e, w)
  | Ok base64 =>
      let w :=
        emit (VendorCall (GenerateContent
                (Service.editImage_request (prompt st) base64 (fileType file))))
             w in
      match Service.editImage v (prompt st) base64 (fileType file) with
      | Ok url => (Ok (setEditedImageUrl url st), w)
      | Throw e => (Throw e, w)
      end
  end.

Definition handleSubmit (env : Env) (v : Vendor) (w : World) (st : State)
    : State * World :=
  if blank (prompt st) then (st, w)
  else
    match originalImage st with
    | None => (st, w)
    | Some file =>
        let st := setIsLoading true st in
        let st := setEditedImageUrl "" st in
        let st := setError "" st in
        let (r, w) := attempt env v file w st in
        let st :=
          match r with
          | Ok st' => st'
          | Throw _ => setError "Failed to edit image. Please try again." st
          end in
        (setIsLoading false st, w)
    end.

End ImageEditor.

(** ** [ImageAnalyzer] *)

Module ImageAnalyzer.
Import Genai Platform.

Record State := {
  prompt : string;
  imageFile : option File;
  imageUrl : string;
  analysis : option string;
  isLoading : bool;
  error : string
}.

Definition initial : State :=
  {| prompt := "Describe this image."; imageFile := None; imageUrl := "";
     analysis := Some ""; isLoading := false; error := "" |}.

Definition setPrompt (p : string) (st : State) : State :=
  {| prompt := p; imageFile := imageFile st; imageUrl := imageUrl st;
     analysis := analysis st; isLoading := isLoading st; error := error st |}.

Definition setAnalysis (a : option string) (st : State) : State :=
  {| prompt := prompt st; imageFile := imageFile st; imageUrl := imageUrl st;
     analysis := a; isLoading := isLoading st; error := error st |}.

Definition setIsLoading (b : bool) (st : State) : State :=
  {| prompt := prompt st; imageFile := imageFile st; imageUrl := imageUrl st;
     analysis := analysis st; isLoading := b; error := error st |}.

Definition setError (e : string) (st : State) : State :=
  {| prompt := prompt st; imageFile := imageFile st; imageUrl := imageUrl st;
     analysis := analysis st; isLoading := isLoading st; error := e |}.

Definition attempt (env : Env) (v : Vendor) (file : File) (w : World)
    (st : State) : result State * World :=
  match fileToBase64 env file with
  | Throw e => (Throw e, w)
  | Ok base64 =>
      let w :=
        emit (VendorCall (GenerateContent
                (Service.analyzeImage_request (prompt st) base64
                   (fileType file)))) w in
      match Service.analyzeImage v (prompt st) base64 (fileType file) with
      | Ok result => (Ok (setAnalysis result st), w)
      | Throw e => (Throw e, w)
      end
  end.

Definition handleSubmit (env : Env) (v : Vendor) (w : World) (st : State)
    : State * World :=
  if blank (prompt st) then (st, w)
  else
    match imageFile st with
    | None => (st, w)
    | Some file =>
        let st := setIsLoading true st in
        let st := setAnalysis (Some "") st in
        let st := setError "" st in
        let (r, w) := attempt env v file w st in
        let st :=
          match r with
          | Ok st' => st'
          | Throw _ => setError "Failed to analyze image." st
          end in
        (setIsLoading false st, w)
    end.

End ImageAnalyzer.

(** ** [TextToSpeech] *)

Module TextToSpeech.
Import Genai Platform.

Record State := {
  text : string;
  isLoading : bool;
  error : string;
  audioContextRef : option nat;
  audioSourceRef : option nat
}.

Definition initial : State :=
  {| text := "Hello, I am Hareram. How can I help you today?";
     isLoading := false; error := ""; audioContextRef := None;
     audioSourceRef := None |}.

Definition setText (t : string) (st : State) : State :=
  {| text := t; isLoading := isLoading st; error := error st;
     audioContextRef := audioContextRef st;
     audioSourceRef := audioSourceRef st |}.

Definition setIsLoading (b : bool) (st : State) : State :=
  {| text := text st; isLoading := b; error := error st;
     audioContextRef := audioContextRef st;
     audioSourceRef := audioSourceRef st |}.

Definition setError (e : string) (st : State) : State :=
  {| text := text st; isLoading := isLoading st; error := e;
     audioContextRef := audioContextRef st;
     audioSourceRef := audioSourceRef st |}.

Definition setAudioContextRef (c : option nat) (st : State) : State :=
  {| text := text st; isLoading := isLoading st; error := error st;
     audioContextRef := c; audioSourceRef := audioSourceRef st |}.

Definition setAudioSourceRef (s : option nat) (st : State) : State :=
  {| text := text st; isLoading := isLoading st; error := error st;
     audioContextRef := audioContextRef st; audioSourceRef := s |}.

(** The [try] block.  The refs it wrote stay written when it raises, so the
    state comes back in both cases. *)
Definition attempt (env : Env) (v : Vendor) (w : World) (st : State)
    : State * World * option Error :=
  let '(ctx, st, w) :=
    match audioContextRef st with
    | Some ctx => (ctx, st, w)
    | None =>
        let (ctx, w) := alloc w in
        (ctx, setAudioContextRef (Some ctx) st, emit (NewAudioContext ctx 24000%N) w)
    end in
  let w := emit (VendorCall (GenerateContent
                   (Service.generateSpeech_request (text st)))) w in
  match Service.generateSpeech v (text st) with
  | Throw e => (st, w, Some e)
  | Ok base64Audio =>
      match decodeAudio env base64Audio with
      | Throw e => (st, w, Some e)
      | Ok audioBuffer =>
          let (source, w) := alloc w in
          let w := emit (CreateBufferSource ctx source) w in
          let w := emit (ConnectNode source None) w in
          let w := emit (StartSource source None) w in
          (setAudioSourceRef (Some source) st, w, None)
      end
  end.

Definition handleSpeak (env : Env) (v : Vendor) (w : World) (st : State)
    : State * World :=
  if blank (text st) then (st, w)
  else
    let st := setIsLoading true st in
    let st := setError "" st in
    let w :=
      match audioSourceRef st with
      | Some source => emit (StopSource source) w
      | None => w
      end in
    let '(st, w, raised) := attempt env v w st in
    let st :=
      match raised with
      | Some _ => setError "Failed to generate speech." st
      | None => st
      end in
    (setIsLoading false st, w).

End TextToSpeech.

(** ** [VideoGenerator] *)

Module VideoGenerator.
Import Genai Platform.

Record State := {
  prompt : string;
  imageFile : option File;
  imageUrl : string;
  aspectRatio : AspectRatio;
  videoUrl : string;
  isLoading : bool;
  loadingMessage : string;
  error : string;
  apiKeySelected : bool;
  operationRef : option VeoOperation
}.

Definition setVideoUrl (u : string) (st : State) : State :=
  {| prompt := prompt st; imageFile := imageFile st; imageUrl := imageUrl st;
     aspectRatio := aspectRatio st; videoUrl := u; isLoading := isLoading st;
     loadingMessage := loadingMessage st; error := error st;
     apiKeySelected := apiKeySelected st; operationRef := operationRef st |}.

Definition setIsLoading (b : bool) (st : State) : State :=
  {| prompt := prompt st; imageFile := imageFile st; imageUrl := imageUrl st;
     aspectRatio := aspectRatio st; videoUrl := videoUrl st; isLoading := b;
     loadingMessage := loadingMessage st; error := error st;
     apiKeySelected := apiKeySelected st; operationRef := operationRef st |}.

Definition setLoadingMessage (m : string) (st : State) : State :=
  {| prompt := prompt st; imageFile := imageFile st; imageUrl := imageUrl st;
     aspectRatio := aspectRatio st; videoUrl := videoUrl st;
     isLoading := isLoading st; loadingMessage := m; error := error st;
     apiKeySelected := apiKeySelected st; operationRef := operationRef st |}.

Definition setError (e : string) (st : State) : State :=
  {| prompt := prompt st; imageFile := imageFile st; imageUrl := imageUrl st;
     aspectRatio := aspectRatio st; videoUrl := videoUrl st;
     isLoading := isLoading st; loadingMessage := loadingMessage st;
     error := e; apiKeySelected := apiKeySelected st;
     operationRef := operationRef st |}.

Definition setApiKeySelected (b : bool) (st : State) : State :=
  {| prompt := prompt st; imageFile := imageFile st; imageUrl := imageUrl st;
     aspectRatio := aspectRatio st; videoUrl := videoUrl st;
     isLoading := isLoading st; loadingMessage := loadingMessage st;
     error := error st; apiKeySelected := b; operationRef := operationRef st |}.

Definition setOperationRef (o : option VeoOperation) (st : State) : State :=
  {| prompt := prompt st; imageFile := imageFile st; imageUrl := imageUrl st;
     aspectRatio := aspectRatio st; videoUrl := videoUrl st;
     isLoading := isLoading st; loadingMessage := loadingMessage st;
     error := error st; apiKeySelected := apiKeySelected st;
     operationRef := o |}.

Definition initial : State :=
  {| prompt := ""; imageFile := None; imageUrl := ""; aspectRatio := Landscape;
     videoUrl := ""; isLoading := false; loadingMessage := ""; error := "";
     apiKeySelected := false; operationRef := None |}.

Definition setPrompt (p : string) (st : State) : State :=
  {| prompt := p; imageFile := imageFile st; imageUrl := imageUrl st;
     aspectRatio := aspectRatio st; videoUrl := videoUrl st;
     isLoading := isLoading st; loadingMessage := loadingMessage st;
     error := error st; apiKeySelected := apiKeySelected st;
     operationRef := operationRef st |}.

Definition setImageFile (f : option File) (st : State) : State :=
  {| prompt := prompt st; imageFile := f; imageUrl := imageUrl st;
     aspectRatio := aspectRatio st; videoUrl := videoUrl st;
     isLoading := isLoading st; loadingMessage := loadingMessage st;
     error := error st; apiKeySelected := apiKeySelected st;
     operationRef := operationRef st |}.

Definition checkFailed : string :=
  "Failed to check video status. The API key might be invalid.".

Definition noVideo : string :=
  "Video generation completed, but no video was returned.".

Definition keyError : string :=
  "API Key error. Please select your API key again.".

Definition startFailed : string := "Failed to start video generation.".

(** The [while] loop of [pollOperation].  [fuel] bounds the number of times
    the loop test is evaluated and [n] counts the refreshes made so far;
    [None] means the loop is still running when the fuel is spent.  The
    boolean tells whether the function returned from inside the loop. *)
Fixpoint poll_loop (v : Vendor) (fuel n : nat) (w : World) (st : State)
    : option (bool * State * World) :=
  match fuel with
  | O => None
  | S fuel' =>
      match operationRef st with
      | None => Some (false, st, w)
      | Some op =>
          if done op then Some (false, st, w)
          else
            let st :=
              setLoadingMessage
                "Processing video... this can take a few minutes." st in
            let w := emit (VendorCall (GetVideosOperation op)) w in
            match Service.checkVideoOperation v n op with
            | Ok op' => poll_loop v fuel' (S n) w (setOperationRef (Some op') st)
            | Throw _ =>
                let st := setError checkFailed st in
                let st := setIsLoading false st in
                let st := setApiKeySelected false st in
                Some (true, st, w)
            end
      end
  end.

(** [operationRef.current.response?.generatedVideos?.[0]?.video?.uri] *)
Definition video_uri (op : VeoOperation) : option string :=
  match response op with
  | None => None
  | Some generatedVideos => Service.first generatedVideos
  end.

(** The part of [pollOperation] after the loop; it raises when the download
    does. *)
Definition deliver (env : Env) (w : World) (st : State)
    : State * World * option Error :=
  match operationRef st with
  | None => (st, w, None)
  | Some op =>
      if done op then
        let uri := video_uri op in
        if truthy_opt uri then
          let downloadUrl :=
            (to_string uri ++ "&key=" ++ to_string (API_KEY env))%string in
          let w := emit (Fetch downloadUrl) w in
          match fetchBlob env downloadUrl with
          | Ok objectUrl =>
              (setIsLoading false (setVideoUrl objectUrl st), w, None)
          | Throw e => (st, w, Some e)
          end
        else (setIsLoading false (setError noVideo st), w, None)
      else (st, w, None)
  end.

Definition pollOperation (env : Env) (v : Vendor) (fuel : nat)
    (op : VeoOperation) (w : World) (st : State)
    : option (State * World * option Error) :=
  let st := setOperationRef (Some op) st in
  match poll_loop v fuel 0 w st with
  | None => None
  | Some (true, st, w) => Some (st, w, None)
  | Some (false, st, w) => Some (deliver env w st)
  end.

(** [e.message?.includes("Requested entity was not found")] *)
Definition entity_not_found (e : Error) : bool :=
  match message e with
  | Some m => includes "Requested entity was not found" m
  | None => false
  end.

(** The [catch] block of [handleSubmit]. *)
Definition catch (e : Error) (st : State) : State :=
  let st :=
    if entity_not_found e
    then setApiKeySelected false (setError keyError st)
    else setError startFailed st in
  setIsLoading false st.

Definition handleSubmit (env : Env) (v : Vendor) (fuel : nat) (w : World)
    (st : State) : option (State * World) :=
  if blank (prompt st) then Some (st, w)
  else
    match imageFile st with
    | None => Some (st, w)
    | Some file =>
        let st := setIsLoading true st in
        let st := setVideoUrl "" st in
        let st := setError "" st in
        let st := setLoadingMessage "Starting video generation..." st in
        match fileToBase64 env file with
        | Throw e => Some (catch e st, w)
        | Ok base64 =>
            let w :=
              emit (VendorCall (GenerateVideos
                      (Service.generateVideo_request (prompt st) base64
                         (fileType file) (aspectRatio st)))) w in
            match Service.generateVideo v (prompt st) base64 (fileType file)
                    (aspectRatio st) with
            | Throw e => Some (catch e st, w)
            | Ok initialOp =>
                match pollOperation env v fuel initialOp w st with
                | None => None
                | Some (st, w, None) => Some (st, w)
                | Some (st, w, Some e) => Some (catch e st, w)
                end
            end
        end
    end.

(** How the vendor lets a polling loop end: starting from handle [op] at
    refresh number [n] and looking [k] refreshes ahead, the loop reaches a
    handle that is done, or a refresh is rejected, or neither has happened
    yet. *)
Inductive Ending :=
| Pending
| Completed (op : VeoOperation)
| Rejected.

Fixpoint ending (v : Vendor) (n : nat) (op : VeoOperation) (k : nat) : Ending :=
  if done op then Completed op
  else
    match k with
    | O => Pending
    | S k' =>
        match Service.checkVideoOperation v n op with
        | Throw _ => Rejected
        | Ok op' => ending v (S n) op' k'
        end
    end.

(** The URL that [pollOperation] downloads for a finished handle. *)
Definition downloadUrl (env : Env) (op : VeoOperation) : string :=
  (to_string (video_uri op) ++ "&key=" ++ to_string (API_KEY env))%string.

(** The view shows a failure: a message is set and the spinner is gone. *)
Definition failed (st : State) : bool :=
  truthy (error st) && negb (isLoading st).

(** The refreshes recorded in a trace. *)
Definition refreshes (tr : list Effect) : nat :=
  List.length
    (filter (fun e => match e with
                      | VendorCall (GetVideosOperation _) => true
                      | _ => false
                      end) tr).

End VideoGenerator.

(** ** [LiveAgent] *)

Module LiveAgent.
Import Genai Platform.

(** A message of the live channel, as far as [onmessage] reads it;
    [interrupted] is [false] when the field is absent. *)
Record LiveServerContent := {
  modelTurn : option Content;
  interrupted : bool
}.

Record LiveServerMessage := { serverContent : option LiveServerContent }.

(** The refs of the component.  [stream] is the local variable of
    [startSession] that holds the microphone stream: after the function
    returns only the [onopen] closure still refers to it.  [audioQueueRef]
    is a [Set], kept in insertion order. *)
Record State := {
  isSessionActive : bool;
  status : string;
  sessionPromiseRef : option nat;
  audioContextRef : option nat;
  scriptProcessorRef : option nat;
  mediaStreamSourceRef : option nat;
  outputAudioContextRef : option nat;
  nextStartTimeRef : Q;
  audioQueueRef : list nat;
  stream : option nat
}.

Definition initial : State :=
  {| isSessionActive := false;
     status := "Not connected. Press Start to talk.";
     sessionPromiseRef := None; audioContextRef := None;
     scriptProcessorRef := None; mediaStreamSourceRef := None;
     outputAudioContextRef := None; nextStartTimeRef := 0%Q;
     audioQueueRef := []; stream := None |}.

Definition setIsSessionActive (b : bool) (st : State) : State :=
  {| isSessionActive := b; status := status st;
     sessionPromiseRef := sessionPromiseRef st;
     audioContextRef := audioContextRef st;
     scriptProcessorRef := scriptProcessorRef st;
     mediaStreamSourceRef := mediaStreamSourceRef st;
     outputAudioContextRef := outputAudioContextRef st;
     nextStartTimeRef := nextStartTimeRef st;
     audioQueueRef := audioQueueRef st; stream := stream st |}.

Definition setStatus (s : string) (st : State) : State :=
  {| isSessionActive := isSessionActive st; status := s;
     sessionPromiseRef := sessionPromiseRef st;
     audioContextRef := audioContextRef st;
     scriptProcessorRef := scriptProcessorRef st;
     mediaStreamSourceRef := mediaStreamSourceRef st;
     outputAudioContextRef := outputAudioContextRef st;
     nextStartTimeRef := nextStartTimeRef st;
     audioQueueRef := audioQueueRef st; stream := stream st |}.

Definition setSessionPromiseRef (p : option nat) (st : State) : State :=
  {| isSessionActive := isSessionActive st; status := status st;
     sessionPromiseRef := p;
     audioContextRef := audioContextRef st;
     scriptProcessorRef := scriptProcessorRef st;
     mediaStreamSourceRef := mediaStreamSourceRef st;
     outputAudioContextRef := outputAudioContextRef st;
     nextStartTimeRef := nextStartTimeRef st;
     audioQueueRef := audioQueueRef st; stream := stream st |}.

Definition setAudioContextRef (c : option nat) (st : State) : State :=
  {| isSessionActive := isSessionActive st; status := status st;
     sessionPromiseRef := sessionPromiseRef st;
     audioContextRef := c;
     scriptProcessorRef := scriptProcessorRef st;
     mediaStreamSourceRef := mediaStreamSourceRef st;
     outputAudioContextRef := outputAudioContextRef st;
     nextStartTimeRef := nextStartTimeRef st;
     audioQueueRef := audioQueueRef st; stream := stream st |}.

Definition setScriptProcessorRef (n : option nat) (st : State) : State :=
  {| isSessionActive := isSessionActive st; status := status st;
     sessionPromiseRef := sessionPromiseRef st;
     audioContextRef := audioContextRef st;
     scriptProcessorRef := n;
     mediaStreamSourceRef := mediaStreamSourceRef st;
     outputAudioContextRef := outputAudioContextRef st;
     nextStartTimeRef := nextStartTimeRef st;
     audioQueueRef := audioQueueRef st; stream := stream st |}.

Definition setMediaStreamSourceRef (n : option nat) (st : State) : State :=
  {| isSessionActive := isSessionActive st; status := status st;
     sessionPromiseRef := sessionPromiseRef st;
     audioContextRef := audioContextRef st;
     scriptProcessorRef := scriptProcessorRef st;
     mediaStreamSourceRef := n;
     outputAudioContextRef := outputAudioContextRef st;
     nextStartTimeRef := nextStartTimeRef st;
     audioQueueRef := audioQueueRef st; stream := stream st |}.

Definition setOutputAudioContextRef (c : option nat) (st : State) : State :=
  {| isSessionActive := isSessionActive st; status := status st;
     sessionPromiseRef := sessionPromiseRef st;
     audioContextRef := audioContextRef st;
     scriptProcessorRef := scriptProcessorRef st;
     mediaStreamSourceRef := mediaStreamSourceRef st;
     outputAudioContextRef := c;
     nextStartTimeRef := nextStartTimeRef st;
     audioQueueRef := audioQueueRef st; stream := stream st |}.

Definition setNextStartTimeRef (t : Q) (st : State) : State :=
  {| isSessionActive := isSessionActive st; status := status st;
     sessionPromiseRef := sessionPromiseRef st;
     audioContextRef := audioContextRef st;
     scriptProcessorRef := scriptProcessorRef st;
     mediaStreamSourceRef := mediaStreamSourceRef st;
     outputAudioContextRef := outputAudioContextRef st;
     nextStartTimeRef := t;
     audioQueueRef := audioQueueRef st; stream := stream st |}.

Definition setAudioQueueRef (q : list nat) (st : State) : State :=
  {| isSessionActive := isSessionActive st; status := status st;
     sessionPromiseRef := sessionPromiseRef st;
     audioContextRef := audioContextRef st;
     scriptProcessorRef := scriptProcessorRef st;
     mediaStreamSourceRef := mediaStreamSourceRef st;
     outputAudioContextRef := outputAudioContextRef st;
     nextStartTimeRef := nextStartTimeRef st;
     audioQueueRef := q; stream := stream st |}.

Definition setStream (s : option nat) (st : State) : State :=
  {| isSessionActive := isSessionActive st; status := status st;
     sessionPromiseRef := sessionPromiseRef st;
     audioContextRef := audioContextRef st;
     scriptProcessorRef := scriptProcessorRef st;
     mediaStreamSourceRef := mediaStreamSourceRef st;
     outputAudioContextRef := outputAudioContextRef st;
     nextStartTimeRef := nextStartTimeRef st;
     audioQueueRef := audioQueueRef st; stream := s |}.

(** [Set.prototype.add] and [Set.prototype.delete]. *)
Definition queue_add (x : nat) (q : list nat) : list nat :=
  if existsb (Nat.eqb x) q then q else q ++ [x].

Definition queue_delete (x : nat) (q : list nat) : list nat :=
  filter (fun y => negb (Nat.eqb x y)) q.

(** [startSession], given what [getUserMedia] answers. *)
Definition startSession (mic : result unit) (w : World) (st : State)
    : State * World :=
  let st := setIsSessionActive true st in
  let st := setStatus "Connecting..." st in
  match mic with
  | Throw _ =>
      let st :=
        setStatus
          "Microphone access denied. Please enable it in your browser settings."
          st in
      (setIsSessionActive false st, w)
  | Ok _ =>
      let (mediaStream, w) := alloc w in
      let w := emit (GetUserMedia mediaStream) w in
      let st := setStream (Some mediaStream) st in
      let (input, w) := alloc w in
      let w := emit (NewAudioContext input 16000%N) w in
      let st := setAudioContextRef (Some input) st in
      let (output, w) := alloc w in
      let w := emit (NewAudioContext output 24000%N) w in
      let st := setOutputAudioContextRef (Some output) st in
      let (session, w) := alloc w in
      let w := emit (LiveConnect session) w in
      (setSessionPromiseRef (Some session) st, w)
  end.

(** The [onopen] callback.  [audioContextRef.current!] is read without a
    check.  The [onaudioprocess] listener it installs, which forwards the
    microphone's buffers to the channel, is left out. *)
Definition onopen (w : World) (st : State) : State * World * option Error :=
  let st := setStatus "Connected! You can start talking." st in
  match audioContextRef st, stream st with
  | Some ctx, Some mediaStream =>
      let (source, w) := alloc w in
      let w := emit (CreateMediaStreamSource ctx mediaStream source) w in
      let st := setMediaStreamSourceRef (Some source) st in
      let (processor, w) := alloc w in
      let w := emit (CreateScriptProcessor ctx processor) w in
      let st := setScriptProcessorRef (Some processor) st in
      let w := emit (ConnectNode source (Some processor)) w in
      let w := emit (ConnectNode processor None) w in
      (st, w, None)
  | _, _ => (st, w, Some TypeError)
  end.

(** [message.serverContent?.modelTurn?.parts[0]?.inlineData?.data]: there is
    no [?.] between [parts] and [[0]], so a turn without [parts] raises. *)
Definition audio_of (message : LiveServerMessage) : result (option string) :=
  match serverContent message with
  | None => Ok None
  | Some sc =>
      match modelTurn sc with
      | None => Ok None
      | Some turn =>
          match parts turn with
          | None => Throw TypeError
          | Some ps =>
              match Service.first ps with
              | None => Ok None
              | Some part =>
                  match inlineData part with
                  | None => Ok None
                  | Some blob => Ok (data blob)
                  end
              end
          end
      end
  end.

(** [message.serverContent?.interrupted] *)
Definition interrupted_of (message : LiveServerMessage) : bool :=
  match serverContent message with
  | None => false
  | Some sc => interrupted sc
  end.

(** The first [if] of [onmessage]: one chunk is decoded and scheduled;
    [now] is [outputAudioContextRef.current.currentTime].  The promise of
    [decodeAudioData] settles before the channel delivers its next message,
    so the stretch runs as one step. *)
Definition schedule (env : Env) (now : Q) (base64Audio : string) (ctx : nat)
    (w : World) (st : State) : State * World * option Error :=
  let st := setNextStartTimeRef (Qmax (nextStartTimeRef st) now) st in
  match decodeAudio env base64Audio with
  | Throw e => (st, w, Some e)
  | Ok audioBuffer =>
      let (source, w) := alloc w in
      let w := emit (CreateBufferSource ctx source) w in
      let w := emit (ConnectNode source None) w in
      let w := emit (StartSource source (Some (nextStartTimeRef st))) w in
      let st :=
        setNextStartTimeRef
          (nextStartTimeRef st + duration audioBuffer)%Q st in
      let st := setAudioQueueRef (queue_add source (audioQueueRef st)) st in
      (st, w, None)
  end.

(** The second [if] of [onmessage]: every queued source is stopped, the
    queue is emptied and the cursor goes back to zero. *)
Definition flush (w : World) (st : State) : State * World :=
  let w := emits (map StopSource (audioQueueRef st)) w in
  let st := setAudioQueueRef [] st in
  (setNextStartTimeRef 0%Q st, w).

Definition onmessage (env : Env) (now : Q) (message : LiveServerMessage)
    (w : World) (st : State) : State * World * option Error :=
  match audio_of message with
  | Throw e => (st, w, Some e)
  | Ok base64Audio =>
      let '(st, w, raised) :=
        match truthy_opt base64Audio, outputAudioContextRef st with
        | true, Some ctx => schedule env now (to_string base64Audio) ctx w st
        | _, _ => (st, w, None)
        end in
      match raised with
      | Some e => (st, w, Some e)
      | None =>
          if interrupted_of message then (flush w st, None)
          else (st, w, None)
      end
  end.

(** The ['ended'] listener of a source. *)
Definition onended (source : nat) (st : State) : State :=
  setAudioQueueRef (queue_delete source (audioQueueRef st)) st.

Definition stopSession (shouldClose : bool) (w : World) (st : State)
    : State * World :=
  let w :=
    match sessionPromiseRef st with
    | Some session => if shouldClose then emit (CloseSession session) w else w
    | None => w
    end in
  let w :=
    match scriptProcessorRef st with
    | Some node => emit (DisconnectNode node) w
    | None => w
    end in
  let w :=
    match mediaStreamSourceRef st with
    | Some node => emit (DisconnectNode node) w
    | None => w
    end in
  let w :=
    match audioContextRef st with
    | Some ctx => emit (CloseContext ctx) w
    | None => w
    end in
  let w := emits (map StopSource (audioQueueRef st)) w in
  let st := setAudioQueueRef [] st in
  let w :=
    match outputAudioContextRef st with
    | Some ctx => emit (CloseContext ctx) w
    | None => w
    end in
  let st := setIsSessionActive false st in
  let st := setStatus "Not connected. Press Start to talk." st in
  (setSessionPromiseRef None st, w).

(** The [onerror] and [onclose] callbacks. *)
Definition onerror (w : World) (st : State) : State * World :=
  stopSession true w (setStatus "Connection error. Please try again." st).

Definition onclose (w : World) (st : State) : State * World :=
  stopSession false w (setStatus "Connection closed." st).

(** What can happen to a session between its start and its stop. *)
Inductive Event :=
| Open
| Message (now : Q) (message : LiveServerMessage)
| Ended (source : nat).

(** One event; a handler that raises keeps the writes it made. *)
Definition step (env : Env) (e : Event) (s : State * World) : State * World :=
  let (st, w) := s in
  match e with
  | Open => fst (onopen w st)
  | Message now message => fst (onmessage env now message w st)
  | Ended source => (onended source st, w)
  end.

Definition run (env : Env) (es : list Event) (s : State * World)
    : State * World :=
  fold_left (fun s e => step env e s) es s.


End LiveAgent.

(** ** Sample vendors, platforms and inputs *)

Module Samples.
Import Genai Platform.

Definition offline : Error := mkError "Failed to fetch".

Definition emptyReply : GenerateContentResponse :=
  {| text := None; candidates := None |}.

(** A reply whose only part is text. *)
Definition textReply (t : string) : GenerateContentResponse :=
  {| text := Some t;
     candidates :=
       Some [{| content :=
                  Some {| parts :=
                            Some [{| inlineData := None; partText := Some t |}] |};
                groundingChunks := None |}] |}.

Definition pending : VeoOperation :=
  {| name := "operations/1"; done := false; response := None |}.

Definition finished (uris : list string) : VeoOperation :=
  {| name := "operations/1"; done := true; response := Some uris |}.

Definition vendor (reply : result GenerateContentResponse)
    (start : result VeoOperation)
    (refresh : nat -> VeoOperation -> result VeoOperation)
    (stream : result Stream) : Vendor :=
  {| generateContent := fun _ => reply;
     generateImages := fun _ => Throw offline;
     generateVideos := fun _ => start;
     getVideosOperation := refresh;
     sendMessageStream := fun _ => stream |}.

(** A vendor whose video job never completes and whose refreshes never
    fail. *)
Definition stuck : Vendor :=
  vendor (Throw offline) (Ok pending) (fun _ op => Ok op) (Throw offline).


(** A vendor that answers text only. *)
Definition chatty : Vendor :=
  vendor (Ok (textReply "ok")) (Throw offline) (fun _ _ => Throw offline)
    (Ok {| chunks := [textReply "ok"]; failure := None |}).

Definition env : Env :=
  {| fileToBase64 := fun _ => Ok "QUJD";
     decodeAudio := fun _ => Ok {| length := 24000; sampleRate := 24000 |};
     fetchBlob := fun _ => Ok "blob:video";
     API_KEY := Some "key" |}.

Definition world : World := {| nextId := 0; trace := [] |}.

(** A vendor whose video job is done at the second refresh, with the given
    videos. *)
Definition slow (uris : list string) : Vendor :=
  vendor (Throw offline) (Ok pending)
    (fun n op => if (n <? 1)%nat then Ok op else Ok (finished uris))
    (Throw offline).



Definition picture : File := {| fileName := "cat.png"; fileType := "image/png" |}.

(** A live message that carries one audio chunk. *)
Definition audioMessage (interrupted : bool) : LiveAgent.LiveServerMessage :=
  {| LiveAgent.serverContent :=
       Some {| LiveAgent.modelTurn :=
                 Some {| parts :=
                           Some [{| inlineData :=
                                      Some {| data := Some "AAAA";
                                              mimeType := Some "audio/pcm" |};
                                    partText := None |}] |};
               LiveAgent.interrupted := interrupted |} |}.

(** A live message that interrupts, and whose turn has no [parts]. *)
Definition bareInterrupt : LiveAgent.LiveServerMessage :=
  {| LiveAgent.serverContent :=
       Some {| LiveAgent.modelTurn := Some {| parts := None |};
               LiveAgent.interrupted := true |} |}.

(** A live session that is open and has one chunk queued. *)
Definition playing : LiveAgent.State * World :=
  LiveAgent.run env
    [LiveAgent.Open; LiveAgent.Message 0%Q (audioMessage false)]
    (LiveAgent.startSession (Ok tt) world LiveAgent.initial).

(** The video view with a prompt typed, a picture picked and a key chosen. *)
Definition filming : VideoGenerator.State :=
  VideoGenerator.setApiKeySelected true
    (VideoGenerator.setImageFile (Some picture)
       (VideoGenerator.setPrompt "a cat surfing" VideoGenerator.initial)).

End Samples.

(** ** The rest of [geminiService.ts]: the shared client *)

Module Client.

(** The vendor client, as far as the adapters configure it: the key it was
    constructed with. *)
Record GoogleGenAI := { apiKey : option string }.

(** [getAi], on the module variable [ai]; [key] is [process.env.API_KEY] at
    the moment of the call.  It gives the client and the new [ai]. *)
Definition getAi (key : option string) (ai : option GoogleGenAI)
    : GoogleGenAI * option GoogleGenAI :=
  match ai with
  | Some client => (client, ai)
  | None =>
      let client := {| apiKey := key |} in
      (client, Some client)
  end.

(** The exported functions of the module. *)
Inductive Adapter :=
| createChat
| generateText
| generateImage
| analyzeImage
| editImage
| generateVideo
| checkVideoOperation
| generateSpeech
| connectLive.

(** [generateVideo] and [checkVideoOperation] construct a client of their
    own; every other adapter goes through [getAi]. *)
Definition recreates (a : Adapter) : bool :=
  match a with
  | generateVideo | checkVideoOperation => true
  | _ => false
  end.

(** The client an adapter talks through. *)
Definition client_of (a : Adapter) (key : option string)
    (ai : option GoogleGenAI) : GoogleGenAI * option GoogleGenAI :=
  if recreates a then ({| apiKey := key |}, ai) else getAi key ai.

(** The keys a sequence of adapter calls goes out with, each call paired
    with the key the environment holds when it is made. *)
Fixpoint keys_used (calls : list (Adapter * option string))
    (ai : option GoogleGenAI) : list (option string) :=
  match calls with
  | [] => []
  | (a, key) :: rest =>
      let (client, ai') := client_of a key ai in
      apiKey client :: keys_used rest ai'
  end.

(** The key the environment held at the first call that went through
    [getAi]. *)
Fixpoint first_shared (calls : list (Adapter * option string))
    : option (option string) :=
  match calls with
  | [] => None
  | (a, key) :: rest => if recreates a then first_shared rest else Some key
  end.

End Client.

(** ** The rest of [App.tsx] *)

(** *** [GroundingChunk] *)

Module Grounding.

(** A citation as the vendor sends it. *)
Record Source := { uri : option string; title : option string }.

Record Chunk := { web : option Source; maps : option Source }.

(** The anchor the component renders. *)
Record Link := { href : string; label : string }.

(** [GroundingChunk]: [None] is the [null] it returns. *)
Definition render (chunk : Chunk) : option Link :=
  let source :=                               (* chunk.web || chunk.maps *)
    match web chunk with
    | Some s => Some s
    | None => maps chunk
    end in
  match source with
  | None => None
  | Some s =>
      if truthy_opt (uri s)
      then Some {| href := to_string (uri s);
                   label := if truthy_opt (title s) then to_string (title s)
                            else to_string (uri s) |}
      else None
  end.

End Grounding.

(** *** What the [Chatbot] view computes when it renders *)

Module ChatView.
Import Genai Types Platform Chatbot.

(** [messages[messages.length-1]] *)
Fixpoint last_message (l : list ChatMessage) : option ChatMessage :=
  match l with
  | [] => None
  | m :: rest =>
      match rest with
      | [] => Some m
      | _ :: _ => last_message rest
      end
  end.

(** [isLoading && messages[messages.length-1].role === 'user']: whether the
    three dots are shown.  Reading [.role] of [undefined] raises. *)
Definition typingIndicator (st : State) : result bool :=
  if isLoading st then
    match last_message (messages st) with
    | None => Throw TypeError
    | Some m => Ok match role m with user => true | model => false end
    end
  else Ok false.

(** The texts of the user's messages, in order. *)
Definition user_texts (l : list ChatMessage) : list string :=
  map content
    (filter (fun m => match role m with user => true | model => false end) l).

(** The texts that went to [sendMessageStream], in order. *)
Fixpoint sent (tr : list Effect) : list string :=
  match tr with
  | [] => []
  | VendorCall (SendMessageStream m) :: rest => m :: sent rest
  | _ :: rest => sent rest
  end.

(** What holds of the chat after any events: a spinner only over a
    conversation that is not empty, and as many user messages as sends. *)
Definition steady (s : System) : Prop :=
  (isLoading (ui s) = true -> messages (ui s) <> [])
  /\ user_texts (messages (ui s)) = sent (trace (world s)).

End ChatView.

(** *** Runs of the [TextToSpeech] view *)

Module Speaking.
Import Genai Platform TextToSpeech.

(** One use of the view: the text typed, and what the platform and the
    vendor answer while it is spoken. *)
Record Request := { env : Env; vendor : Vendor; typed : string }.

Definition speak (r : Request) (s : State * World) : State * World :=
  let (st, w) := s in
  handleSpeak (env r) (vendor r) w (setText (typed r) st).

Definition run (rs : list Request) (s : State * World) : State * World :=
  fold_left (fun s r => speak r s) rs s.



Definition is_start (e : Effect) : bool :=
  match e with StartSource _ _ => true | _ => false end.

End Speaking.

(** *** The key screen of [VideoGenerator] *)

Module KeyGate.
Import Genai Platform VideoGenerator.

(** [window.aistudio], when the host page provides it: what its two
    functions answer. *)
Record AiStudio := {
  hasSelectedApiKey : result bool;
  openSelectKey : result unit
}.

Definition setImageUrl (u : string) (st : State) : State :=
  {| prompt := prompt st; imageFile := imageFile st; imageUrl := u;
     aspectRatio := aspectRatio st; videoUrl := videoUrl st;
     isLoading := isLoading st; loadingMessage := loadingMessage st;
     error := error st; apiKeySelected := apiKeySelected st;
     operationRef := operationRef st |}.

(** The mount effect [checkKey]. *)
Definition checkKey (aistudio : option AiStudio) (st : State) : State :=
  match aistudio with
  | None => st
  | Some a =>
      match hasSelectedApiKey a with
      | Ok true => setApiKeySelected true st
      | _ => st
      end
  end.

(** [handleSelectKey]: success is assumed once the dialog has been shown. *)
Definition handleSelectKey (aistudio : option AiStudio) (st : State) : State :=
  match aistudio with
  | None => st
  | Some a =>
      match openSelectKey a with
      | Ok _ => setApiKeySelected true st
      | Throw _ => st
      end
  end.

(** [handleFileChange], for a picked file and its object URL. *)
Definition handleFileChange (file : File) (url : string) (st : State) : State :=
  setImageUrl url (setImageFile (Some file) st).

(** What can be done to the view.  While [apiKeySelected] is false the view
    renders the key screen only, whose one control is the key button; the
    generator's controls exist only once it is true. *)
Inductive Event :=
| CheckKey (aistudio : option AiStudio)
| SelectKey (aistudio : option AiStudio)
| PickFile (file : File) (url : string)
| TypePrompt (p : string)
| Submit (env : Env) (v : Vendor) (fuel : nat).

Definition step (e : Event) (s : State * World) : option (State * World) :=
  let (st, w) := s in
  match e with
  | CheckKey a => Some (checkKey a st, w)
  | SelectKey a =>
      if apiKeySelected st then Some (st, w)
      else Some (handleSelectKey a st, w)
  | PickFile f url =>
      if apiKeySelected st then Some (handleFileChange f url st, w)
      else Some (st, w)
  | TypePrompt p =>
      if apiKeySelected st then Some (setPrompt p st, w) else Some (st, w)
  | Submit env v fuel =>
      if apiKeySelected st then handleSubmit env v fuel w st else Some (st, w)
  end.

Fixpoint run (es : list Event) (s : State * World) : option (State * World) :=
  match es with
  | [] => Some s
  | e :: rest =>
      match step e s with
      | None => None
      | Some s' => run rest s'
      end
  end.

(** The host page has no [aistudio] object during the event. *)
Definition unaided (e : Event) : bool :=
  match e with
  | CheckKey None | SelectKey None => true
  | CheckKey (Some _) | SelectKey (Some _) => false
  | _ => true
  end.

End KeyGate.

(** *** The samples the live session sends: [onaudioprocess] *)

Module Pcm.

(** A sample of the input buffer is a [float32]; its product with 32768 is
    exact in a double, so a finite sample is the rational it denotes.
    Storing a number into an [Int16Array] truncates it towards zero and
    keeps the low sixteen bits, read as a signed number. *)
Definition truncate (x : Q) : Z := Z.quot (Qnum x) (Zpos (Qden x)).

Definition toInt16 (z : Z) : Z :=
  let m := (z mod 65536)%Z in
  if (m <? 32768)%Z then m else (m - 65536)%Z.

(** [int16[i] = inputData[i] * 32768] *)
Definition sample (x : Q) : Z := toInt16 (truncate (x * 32768)%Q).

End Pcm.

(** *** Counting the calls that reach the vendor *)

Module Counting.
Import Platform.

Definition is_call (e : Effect) : bool :=
  match e with VendorCall _ => true | _ => false end.

Definition calls (tr : list Effect) : nat := List.length (filter is_call tr).

Definition is_ask (e : Effect) : bool :=
  match e with GetCurrentPosition => true | _ => false end.

(** How often a trace asked the platform for the position. *)
Definition asks (tr : list Effect) : nat := List.length (filter is_ask tr).

End Counting.

(** ** More samples *)

Module MoreSamples.
Import Genai Platform.

(** A reply whose first part is text and whose second part carries bytes. *)
Definition mixedReply : GenerateContentResponse :=
  {| text := Some "here you are";
     candidates :=
       Some [{| content :=
                  Some {| parts :=
                            Some [{| inlineData := None;
                                     partText := Some "here you are" |};
                                  {| inlineData :=
                                       Some {| data := Some "AAAA";
                                               mimeType := Some "image/png" |};
                                     partText := None |}] |};
                groundingChunks := None |}] |}.

(** A vendor that answers every content request with [mixedReply]. *)
Definition mixed : Vendor :=
  Samples.vendor (Ok mixedReply) (Throw Samples.offline)
    (fun _ _ => Throw Samples.offline) (Throw Samples.offline).


(** A platform on which no file can be read. *)
Definition unreadable : Env :=
  {| fileToBase64 := fun _ => Throw (mkError "NotReadableError");
     decodeAudio := decodeAudio Samples.env;
     fetchBlob := fetchBlob Samples.env;
     API_KEY := API_KEY Samples.env |}.

(** A host page whose key dialog opens although no key is selected. *)
Definition undecided : KeyGate.AiStudio :=
  {| KeyGate.hasSelectedApiKey := Ok false; KeyGate.openSelectKey := Ok tt |}.

End MoreSamples.

(** * Properties *)

(** ** The adapters *)

Module ServiceFacts.
Import Genai Service.







End ServiceFacts.

(** ** The guards on an empty prompt *)

Module GuardFacts.
Import Genai Platform.

(** C5.  With a prompt that is empty once trimmed, the submit handlers of
    the text, image-generation, image-edit, image-analysis and speech views
    return at their guard: the world is the one they were given, so no
    vendor call (nor any other call) was recorded, and every state cell,
    [isLoading] and [error] among them, is as it was. *)
Theorem blank_prompt_is_ignored (p : string) (env : Env) (v : Vendor)
    (w : World)
    (t : TextGenerator.State) (g : ImageGenerator.State)
    (e : ImageEditor.State) (a : ImageAnalyzer.State)
    (s : TextToSpeech.State) :
  blank p = true ->
  TextGenerator.handleSubmit v w (TextGenerator.setPrompt p t)
    = (TextGenerator.setPrompt p t, w)
  /\ ImageGenerator.handleSubmit v w (ImageGenerator.setPrompt p g)
    = (ImageGenerator.setPrompt p g, w)
  /\ ImageEditor.handleSubmit env v w (ImageEditor.setPrompt p e)
    = (ImageEditor.setPrompt p e, w)
  /\ ImageAnalyzer.handleSubmit env v w (ImageAnalyzer.setPrompt p a)
    = (ImageAnalyzer.setPrompt p a, w)
  /\ TextToSpeech.handleSpeak env v w (TextToSpeech.setText p s)
    = (TextToSpeech.setText p s, w).
Proof.
  intro Hblank.
  unfold TextGenerator.handleSubmit, ImageGenerator.handleSubmit,
    ImageEditor.handleSubmit, ImageAnalyzer.handleSubmit,
    TextToSpeech.handleSpeak.
  cbn [TextGenerator.prompt TextGenerator.setPrompt
       ImageGenerator.prompt ImageGenerator.setPrompt
       ImageEditor.prompt ImageEditor.setPrompt
       ImageAnalyzer.prompt ImageAnalyzer.setPrompt
       TextToSpeech.text TextToSpeech.setText].
  rewrite Hblank. repeat split.
Qed.

Lemma blank_prompt_is_ignored_witness :
  TextGenerator.handleSubmit Samples.chatty Samples.world
    (TextGenerator.setPrompt "   " TextGenerator.initial)
  = (TextGenerator.setPrompt "   " TextGenerator.initial, Samples.world)
  /\ TextToSpeech.handleSpeak Samples.env Samples.chatty Samples.world
       (TextToSpeech.setText "   " TextToSpeech.initial)
     = (TextToSpeech.setText "   " TextToSpeech.initial, Samples.world).
Proof.
  destruct (@blank_prompt_is_ignored "   " Samples.env Samples.chatty
              Samples.world TextGenerator.initial
              ImageGenerator.initial ImageEditor.initial
              ImageAnalyzer.initial TextToSpeech.initial)
    as (Ht & _ & _ & _ & Hs).
  - reflexivity.
  - split; assumption.
Defined.

(** A prompt that is not blank does reach the vendor: the guard is the only
    thing that kept the call back. *)
Lemma text_prompt_is_sent (v : Vendor) (w : World) (t : TextGenerator.State) :
  blank (TextGenerator.prompt t) = false ->
  exists r,
    trace (snd (TextGenerator.handleSubmit v w t))
    = trace w ++ [VendorCall (GenerateContent r)]
    /\ TextGenerator.isLoading (fst (TextGenerator.handleSubmit v w t)) = false.
Proof.
  intro H. unfold TextGenerator.handleSubmit. rewrite H.
  eexists. split; reflexivity.
Qed.

End GuardFacts.

(** ** The chat *)

Module ChatbotFacts.
Import Genai Types Platform Chatbot.

Lemma set_last_content_last (c : string) (l : list ChatMessage)
    (m : ChatMessage) :
  set_last_content c (l ++ [m]) = Ok (l ++ [{| role := role m; content := c |}]).
Proof.
  induction l as [|x l IH]; simpl.
  - reflexivity.
  - destruct (l ++ [m]) as [|y rest] eqn:E.
    + destruct l; discriminate E.
    + rewrite IH. reflexivity.
Qed.

Lemma stream_loop_last (cs : list GenerateContentResponse) :
  forall (acc : string) (l : list ChatMessage) (c : string),
    stream_loop cs acc (l ++ [{| role := model; content := c |}])
    = Ok (l ++ [{| role := model;
                   content :=
                     fold_left
                       (fun a chunk => (a ++ to_string (text chunk))%string)
                       cs
                       match cs with [] => c | _ :: _ => acc end |}]).
Proof.
  induction cs as [|chunk cs IH]; intros acc l c; simpl.
  - reflexivity.
  - rewrite set_last_content_last. simpl. rewrite IH.
    destruct cs; reflexivity.
Qed.

(** The updaters never raise: the placeholder is appended before the first
    chunk is written into the last message. *)
Lemma handleSend_resume_settles (reply : result Stream) (st : State) :
  handleSend_resume reply st
  = Ok (setIsLoading false (setMessages (messages st ++ reply_messages reply) st)).
Proof.
  unfold handleSend_resume, reply_messages.
  destruct reply as [stream|e]; simpl.
  - rewrite stream_loop_last. simpl.
    assert (E : fold_left
                  (fun a chunk => (a ++ to_string (text chunk))%string)
                  (chunks stream)
                  match chunks stream with [] => "" | _ :: _ => "" end
                = streamed_text (chunks stream))
      by (unfold streamed_text; destruct (chunks stream); reflexivity).
    rewrite E.
    destruct (failure stream); simpl.
    + rewrite <- app_assoc. reflexivity.
    + reflexivity.
  - reflexivity.
Qed.

Lemma handleSend_begin_rejected (w : World) (st : State) :
  rejected st = true -> handleSend_begin w st = (st, w, None).
Proof. intro H. unfold handleSend_begin. now rewrite H. Qed.

Lemma handleSend_begin_accepted (w : World) (st : State) :
  rejected st = false ->
  handleSend_begin w st
  = ({| chat := chat st;
        messages := messages st ++ [{| role := user; content := input st |}];
        input := ""; isLoading := true |},
     emit (VendorCall (SendMessageStream (input st))) w,
     Some (input st)).
Proof. intro H. unfold handleSend_begin. now rewrite H. Qed.





(** When no stream breaks after it opened, the roles do alternate. *)
Lemma clean_transcript_alternates (subs : list (string * result Stream)) :
  Forall (fun sub => match snd sub with
                     | Ok stream => failure stream = None
                     | Throw _ => True
                     end) subs ->
  alternates user (session_transcript subs) = true.
Proof.
  induction 1 as [|[typed reply] subs Hc _ IH]; simpl.
  - reflexivity.
  - destruct (blank typed); simpl; [exact IH|].
    destruct reply as [stream|e]; simpl in *.
    + rewrite Hc. simpl. exact IH.
    + exact IH.
Qed.

Lemma step_tidy (e : Event) (s : System) :
  tidy s = true -> exists s', step e s = Ok s' /\ tidy s' = true.
Proof.
  unfold tidy. intro H. apply andb_prop in H. destruct H as [Hlen Hload].
  destruct e as [| t | | reply]; simpl.
  - eexists. split; [reflexivity|]. simpl. now rewrite Hlen, Hload.
  - eexists. split; [reflexivity|]. simpl. now rewrite Hlen, Hload.
  - unfold handleSend_begin.
    destruct (rejected (ui s)) eqn:R.
    + eexists. split; [reflexivity|]. simpl. now rewrite Hlen, Hload.
    + eexists. split; [reflexivity|]. simpl.
      unfold rejected in R. apply orb_false_elim in R. destruct R as [_ R].
      rewrite R in Hload. simpl in Hload.
      destruct (inflight s); [reflexivity | discriminate].
  - destruct (inflight s) as [|m rest] eqn:E.
    + eexists. split; [reflexivity|]. rewrite E. simpl. now rewrite Hload.
    + rewrite handleSend_resume_settles. simpl.
      eexists. split; [reflexivity|]. simpl.
      destruct rest; [reflexivity | discriminate].
Qed.

Lemma run_tidy (es : list Event) :
  forall s, tidy s = true -> exists s', run es s = Ok s' /\ tidy s' = true.
Proof.
  induction es as [|e es IH]; intros s H; simpl.
  - now exists s.
  - destruct (step_tidy e s H) as (s1 & Hs & H1).
    rewrite Hs. simpl. now apply IH.
Qed.

(** C10.  However mounting, typing, sending and settling interleave, the
    chat never has more than one request unsettled, and it has one only
    while [isLoading] holds.  A send while [isLoading] holds, or before the
    chat object exists, returns at the guard: same state (messages and input
    included), same world, no call.  An accepted send has already cleared
    the input when it calls the vendor, and sends the text that was typed. *)
Theorem one_chat_request_at_a_time (es : list Event) (w : World) (st : State) :
  (exists s,
     run es boot = Ok s
     /\ (List.length (inflight s) <= 1)%nat
     /\ (inflight s <> [] -> isLoading (ui s) = true))
  /\ (isLoading st = true \/ chat st = None ->
      handleSend_begin w st = (st, w, None))
  /\ (rejected st = false ->
      exists st',
        handleSend_begin w st
        = (st', emit (VendorCall (SendMessageStream (input st))) w,
           Some (input st))
        /\ input st' = "" /\ isLoading st' = true
        /\ messages st'
           = messages st ++ [{| role := user; content := input st |}]).
Proof.
  split; [|split].
  - destruct (@run_tidy es boot eq_refl) as (s & Hs & Ht).
    exists s. split; [exact Hs|].
    unfold tidy in Ht. apply andb_prop in Ht. destruct Ht as [Hlen Hload].
    split.
    + now apply Nat.leb_le.
    + intro Hne. destruct (isLoading (ui s)); [reflexivity|].
      destruct (inflight s); [contradiction | discriminate].
  - intro H. apply handleSend_begin_rejected. unfold rejected.
    destruct H as [H|H]; rewrite H.
    + now rewrite orb_true_r.
    + now rewrite orb_true_r.
  - intro H. rewrite (handleSend_begin_accepted w st H).
    eexists. split; [reflexivity|]. simpl. repeat split.
Qed.

Lemma one_chat_request_at_a_time_witness :
  (exists s,
     run [Mount; Typing "hi"; Send; Typing "again"; Send] boot = Ok s
     /\ (List.length (inflight s) <= 1)%nat)
  /\ handleSend_begin Samples.world
       (setIsLoading true (setInput "again" (mount initial)))
     = (setIsLoading true (setInput "again" (mount initial)),
        Samples.world, None)
  /\ exists st',
       handleSend_begin Samples.world (setInput "hi" (mount initial))
       = (st', emit (VendorCall (SendMessageStream "hi")) Samples.world,
          Some "hi")
       /\ input st' = "".
Proof.
  destruct (@one_chat_request_at_a_time
              [Mount; Typing "hi"; Send; Typing "again"; Send]
              Samples.world
              (setIsLoading true (setInput "again" (mount initial))))
    as ((s & Hs & Hlen & _) & Hbusy & _).
  destruct (@one_chat_request_at_a_time [] Samples.world
              (setInput "hi" (mount initial)))
    as (_ & _ & Hfree).
  split; [exists s; split; assumption|].
  split.
  - apply Hbusy. left. reflexivity.
  - destruct (Hfree eq_refl) as (st' & Hb & Hi & _).
    exists st'. split; assumption.
Defined.

End ChatbotFacts.

(** ** Location grounding *)

Module TextGeneratorFacts.
Import Genai Platform TextGenerator.

Lemma handleSubmit_trace (v : Vendor) (w : World) (st : State) :
  handleSubmit v w st = (st, w)
  \/ trace (snd (handleSubmit v w st))
     = trace w ++
       [VendorCall (GenerateContent
          (Service.generateText_request (prompt st) (useThinking st)
             (useSearch st) (useMaps st) (position st)))].
Proof.
  unfold handleSubmit. destruct (blank (prompt st)).
  - now left.
  - right. reflexivity.
Qed.

Lemma handleSubmit_position (v : Vendor) (w : World) (st : State) :
  position (fst (handleSubmit v w st)) = position st.
Proof.
  unfold handleSubmit. destruct (blank (prompt st)); simpl.
  - reflexivity.
  - now destruct (Service.generateText _ _ _ _ _ _).
Qed.






End TextGeneratorFacts.

(** ** Video generation *)

Module VideoGeneratorFacts.
Import Genai Platform VideoGenerator.

Lemma refreshes_emit (e : Effect) (w : World) :
  refreshes (trace (emit e w))
  = (refreshes (trace w)
     + match e with VendorCall (GetVideosOperation _) => 1 | _ => 0 end)%nat.
Proof.
  unfold refreshes, emit. simpl. rewrite filter_app, length_app. simpl.
  destruct e as [[]| | | | | | | | | | | | | | |]; reflexivity.
Qed.

Lemma eta_operationRef (st : State) (op : VeoOperation) :
  operationRef st = Some op ->
  st = setOperationRef (Some op) (setLoadingMessage (loadingMessage st) st).
Proof. destruct st; simpl; intro H; subst; reflexivity. Qed.

(** The loop follows the vendor: it stops where [ending] says, having made
    no more than [k] refreshes. *)
Lemma poll_loop_ending (v : Vendor) (k : nat) :
  forall (n : nat) (op : VeoOperation) (w : World) (st : State) (fuel : nat),
    operationRef st = Some op -> (k < fuel)%nat ->
    match ending v n op k with
    | Pending => True
    | Completed op' =>
        exists m w',
          poll_loop v fuel n w st
          = Some (false, setOperationRef (Some op') (setLoadingMessage m st), w')
          /\ done op' = true
          /\ (refreshes (trace w') <= refreshes (trace w) + k)%nat
    | Rejected =>
        exists m op' w',
          poll_loop v fuel n w st
          = Some (true,
                  setApiKeySelected false
                    (setIsLoading false
                       (setError checkFailed
                          (setOperationRef (Some op') (setLoadingMessage m st)))),
                  w')
          /\ done op' = false
          /\ (refreshes (trace w') <= refreshes (trace w) + k)%nat
    end.
Proof.
  induction k as [|k IH]; intros n op w st fuel Hop Hk;
    (destruct fuel as [|fuel]; [lia|]); simpl; rewrite Hop.
  - destruct (done op) eqn:D; [|exact I].
    exists (loadingMessage st), w. rewrite <- (eta_operationRef st Hop).
    repeat split; [exact D | lia].
  - destruct (done op) eqn:D.
    + exists (loadingMessage st), w. rewrite <- (eta_operationRef st Hop).
      repeat split; [exact D | lia].
    + destruct (Service.checkVideoOperation v n op) as [op'|e] eqn:C.
      * match goal with
        | |- context [poll_loop v fuel (S n) ?w1 ?st1] =>
            pose proof (IH (S n) op' w1 st1 fuel eq_refl ltac:(lia)) as H;
            assert (R : refreshes (trace w1) = S (refreshes (trace w)))
              by (rewrite refreshes_emit; lia)
        end.
        destruct (ending v (S n) op' k) as [|op''|]; [exact I | |].
        -- destruct H as (m & w' & Hp & Hd & Hr).
           exists m, w'. rewrite Hp. repeat split; [exact Hd | lia].
        -- destruct H as (m & op'' & w' & Hp & Hd & Hr).
           exists m, op'', w'. rewrite Hp. repeat split; [exact Hd | lia].
      * eexists _, op, _. split; [|split; [exact D|]].
        -- rewrite (eta_operationRef st Hop) at 1. reflexivity.
        -- rewrite refreshes_emit. lia.
Qed.

(** While the vendor neither completes nor rejects, the loop goes on. *)
Lemma poll_loop_pending (v : Vendor) (fuel : nat) :
  forall (n : nat) (op : VeoOperation) (w : World) (st : State),
    operationRef st = Some op -> ending v n op fuel = Pending ->
    poll_loop v fuel n w st = None.
Proof.
  induction fuel as [|fuel IH]; intros n op w st Hop He; simpl in *.
  - reflexivity.
  - rewrite Hop. destruct (done op); [discriminate|].
    destruct (Service.checkVideoOperation v n op) as [op'|e]; [|discriminate].
    now apply (IH (S n) op').
Qed.

Lemma pollOperation_ending (env : Env) (v : Vendor) (op : VeoOperation)
    (w : World) (st : State) (k fuel : nat) :
  (k < fuel)%nat ->
  match ending v 0 op k with
  | Pending => True
  | Completed op' =>
      exists m w',
        pollOperation env v fuel op w st
        = Some (deliver env w'
                  (setOperationRef (Some op') (setLoadingMessage m st)))
        /\ done op' = true
        /\ (refreshes (trace w') <= refreshes (trace w) + k)%nat
  | Rejected =>
      exists m op' w',
        pollOperation env v fuel op w st
        = Some (setApiKeySelected false
                  (setIsLoading false
                     (setError checkFailed
                        (setOperationRef (Some op') (setLoadingMessage m st)))),
                w', None)
        /\ (refreshes (trace w') <= refreshes (trace w) + k)%nat
  end.
Proof.
  intro Hk. unfold pollOperation.
  pose proof (@poll_loop_ending v k 0 op w (setOperationRef (Some op) st) fuel
                eq_refl Hk) as H.
  destruct (ending v 0 op k) as [|op'|]; [exact I | |].
  - destruct H as (m & w' & Hp & Hd & Hr). exists m, w'.
    rewrite Hp. repeat split; assumption.
  - destruct H as (m & op' & w' & Hp & _ & Hr). exists m, op', w'.
    rewrite Hp. split; [reflexivity | assumption].
Qed.

Lemma refreshes_fetch (url : string) (w : World) :
  refreshes (trace (emit (Fetch url) w)) = refreshes (trace w).
Proof. rewrite refreshes_emit. lia. Qed.

(** C1, as amended.  Polling follows the vendor.  If within [k] refreshes
    the handle reports completion or a refresh is rejected, [pollOperation]
    returns (with any fuel above [k]) after at most [k] refreshes; a handle
    that is done but has no video URI leaves the "no video was returned"
    message with the spinner off, and a rejected refresh leaves the "failed
    to check" message with the spinner off.  If the handle never reports
    completion and no refresh is ever rejected, the loop never ends: no
    amount of fuel makes [pollOperation] return, so no error is shown. *)
Theorem polling_follows_the_vendor (env : Env) (v : Vendor)
    (op : VeoOperation) (w : World) (st : State) (k fuel : nat) :
  (k < fuel)%nat ->
  (ending v 0 op k <> Pending ->
   exists st' w' raised,
     pollOperation env v fuel op w st = Some (st', w', raised)
     /\ (refreshes (trace w') <= refreshes (trace w) + k)%nat
     /\ match ending v 0 op k with
        | Pending => False
        | Completed op' =>
            operationRef st' = Some op'
            /\ (truthy_opt (video_uri op') = false ->
                raised = None /\ error st' = noVideo /\ failed st' = true)
        | Rejected =>
            raised = None /\ error st' = checkFailed /\ failed st' = true
            /\ apiKeySelected st' = false
        end)
  /\ ((forall j, ending v 0 op j = Pending) ->
      forall fuel', pollOperation env v fuel' op w st = None).
Proof.
  intro Hk. split.
  - intro Hne.
    pose proof (@pollOperation_ending env v op w st k fuel Hk) as H.
    destruct (ending v 0 op k) as [|op'|]; [contradiction | |].
    + destruct H as (m & w' & Hp & Hd & Hr). rewrite Hp.
      unfold deliver. cbn [operationRef setOperationRef]. rewrite Hd.
      destruct (truthy_opt (video_uri op')) eqn:U.
      * destruct (fetchBlob env _) as [url|e];
          do 3 eexists; (split; [reflexivity|]);
          (split; [rewrite refreshes_fetch; exact Hr|]);
          (split; [reflexivity | discriminate]).
      * do 3 eexists. split; [reflexivity|]. split; [exact Hr|].
        split; [reflexivity|]. intros _. repeat split.
    + destruct H as (m & op' & w' & Hp & Hr). rewrite Hp.
      do 3 eexists. split; [reflexivity|]. split; [exact Hr|].
      repeat split.
  - intros Hpend fuel'. unfold pollOperation.
    now rewrite (@poll_loop_pending v fuel' 0 op w
                   (setOperationRef (Some op) st) eq_refl (Hpend fuel')).
Qed.

Lemma stuck_is_pending (j : nat) :
  forall n, ending Samples.stuck n Samples.pending j = Pending.
Proof. induction j as [|j IH]; intro n; [reflexivity | exact (IH (S n))]. Qed.

Lemma polling_follows_the_vendor_witness :
  (exists st' w',
     pollOperation Samples.env (Samples.slow []) 5 Samples.pending
       Samples.world Samples.filming = Some (st', w', None)
     /\ (refreshes (trace w') <= 2)%nat
     /\ error st' = noVideo /\ failed st' = true)
  /\ pollOperation Samples.env Samples.stuck 1000 Samples.pending
       Samples.world Samples.filming = None.
Proof.
  destruct (@polling_follows_the_vendor Samples.env (Samples.slow [])
              Samples.pending Samples.world Samples.filming 2 5)
    as [Hends _]; [lia|].
  destruct (@polling_follows_the_vendor Samples.env Samples.stuck
              Samples.pending Samples.world Samples.filming 0 1)
    as [_ Hstuck]; [lia|].
  split.
  - destruct Hends as (st' & w' & raised & Hp & Hr & Hop & Hno);
      [discriminate|].
    destruct (Hno eq_refl) as (Hraised & Herr & Hfailed).
    exists st', w'. subst raised. repeat split; assumption.
  - apply Hstuck. intro j. apply stuck_is_pending.
Defined.

(** C1, as stated, fails: with a vendor that keeps answering "not done" the
    loop has not returned after any number of steps, so it never shows an
    error. *)
Lemma pending_job_is_polled_forever :
  ~ exists fuel outcome,
      pollOperation Samples.env Samples.stuck fuel Samples.pending
        Samples.world Samples.filming = Some outcome.
Proof.
  intros (fuel & outcome & H).
  unfold pollOperation in H.
  rewrite (@poll_loop_pending Samples.stuck fuel 0 Samples.pending) in H.
  - discriminate H.
  - reflexivity.
  - apply stuck_is_pending.
Qed.




End VideoGeneratorFacts.

(** ** The live session *)

Module LiveAgentFacts.
Import Genai Platform LiveAgent.
















Lemma in_emit (x e : Effect) (w : World) :
  In x (trace (emit e w)) -> In x (trace w) \/ x = e.
Proof.
  unfold emit. simpl. intro H. apply in_app_or in H.
  destruct H as [H|[H|[]]]; auto.
Qed.

(** What [schedule] does with a chunk that decodes. *)
Lemma schedule_decoded (env : Env) (now : Q) (a : string) (ctx : nat)
    (w : World) (st : State) (buf : AudioBuffer) :
  decodeAudio env a = Ok buf ->
  let start := Qmax (nextStartTimeRef st) now in
  let r := schedule env now a ctx w st in
  snd r = None
  /\ nextStartTimeRef (fst (fst r)) = (start + duration buf)%Q
  /\ audioQueueRef (fst (fst r)) = queue_add (nextId w) (audioQueueRef st)
  /\ trace (snd (fst r))
     = trace w ++ [CreateBufferSource ctx (nextId w);
                   ConnectNode (nextId w) None;
                   StartSource (nextId w) (Some start)].
Proof.
  intro D. unfold schedule. rewrite D. simpl.
  repeat split. now rewrite <- !app_assoc.
Qed.


Lemma in_stops (x : Effect) (q : list nat) :
  In x (map StopSource q) -> exists src, x = StopSource src.
Proof.
  intro H. apply in_map_iff in H. destruct H as (src & H & _).
  exists src. now symmetry.
Qed.





(** When the handler completes on an interrupting message, every source
    that was queued has been stopped, the queue is empty and the cursor is
    back at zero. *)
Lemma interrupt_flushes_when_handler_completes (env : Env) (now : Q)
    (m : LiveServerMessage) (w : World) (st : State) :
  let r := onmessage env now m w st in
  interrupted_of m = true -> snd r = None ->
  audioQueueRef (fst (fst r)) = []
  /\ nextStartTimeRef (fst (fst r)) = 0%Q
  /\ forall src, In src (audioQueueRef st) ->
                 In (StopSource src) (trace (snd (fst r))).
Proof.
  cbv zeta. intros Hi. unfold onmessage. rewrite Hi.
  assert (Hflush : forall st1 w1 src,
             In src (audioQueueRef st1) ->
             In (StopSource src) (trace (snd (flush w1 st1)))).
  { intros st1 w1 src H. unfold flush, emits. simpl.
    apply in_or_app. right. now apply in_map. }
  destruct (audio_of m) as [a|e]; [|discriminate].
  destruct (truthy_opt a);
    [destruct (outputAudioContextRef st) as [ctx|]|];
    try (cbn [fst snd]; intros _; repeat split; apply Hflush).
  unfold schedule. destruct (decodeAudio env (to_string a)); [|discriminate].
  cbn [fst snd alloc]. intros _. repeat split.
  intros src H. apply Hflush. cbn [audioQueueRef setAudioQueueRef
    setNextStartTimeRef]. unfold queue_add.
  destruct (existsb _ _); [exact H | apply in_or_app; now left].
Qed.

(** C3, on the code.  A message that interrupts and whose [modelTurn] has no
    [parts] makes the handler raise while it reads [parts[0]], before it
    reaches the interrupt branch: the queued source is not stopped, the
    queue is not emptied and the cursor is not reset. *)
Lemma interrupt_is_lost_when_the_turn_has_no_parts :
  let st := fst Samples.playing in
  let w := snd Samples.playing in
  audioQueueRef st = [6]
  /\ interrupted_of Samples.bareInterrupt = true
  /\ onmessage Samples.env 1%Q Samples.bareInterrupt w st
     = (st, w, Some TypeError)
  /\ ~ In (StopSource 6) (trace w)
  /\ ~ (nextStartTimeRef st == 0)%Q.
Proof.
  cbv zeta. split; [reflexivity|]. split; [reflexivity|].
  split; [reflexivity|]. split.
  - vm_compute. intuition discriminate.
  - vm_compute. discriminate.
Qed.

End LiveAgentFacts.

(** ** More on the adapters *)

Module ServiceMore.
Import Genai Service.

(** X1.  The request [generateText] builds never carries an empty [tools]
    array: [tools] is absent exactly when neither Search nor Maps is on, and
    otherwise lists Search (if on) before Maps (if on) and nothing else.
    Coordinates are sent only together with the Maps tool, and exactly when
    Maps is on and a position is known; the thinking budget of 32768 goes
    with the pro model and with nothing else. *)
Theorem generateText_request_shape (prompt : string)
    (useThinking useSearch useMaps : bool) (pos : option LatLng) :
  let r := generateText_request prompt useThinking useSearch useMaps pos in
  tools (config r) <> Some []
  /\ (tools (config r) = None <-> useSearch = false /\ useMaps = false)
  /\ (forall l, tools (config r) = Some l ->
        l = (if useSearch then [googleSearch] else [])
            ++ (if useMaps then [googleMaps] else []))
  /\ (toolConfig (config r) <> None <-> useMaps = true /\ pos <> None)
  /\ (toolConfig (config r) <> None ->
      exists l, tools (config r) = Some l /\ In googleMaps l)
  /\ (model r = "gemini-2.5-pro" <-> useThinking = true)
  /\ (thinkingBudget (config r) = Some 32768%Z <-> useThinking = true)
  /\ contents r = [TextPart prompt].
Proof.
  cbv zeta. unfold generateText_request.
  destruct useThinking, useSearch, useMaps, pos as [p|]; simpl;
    repeat split; intros; try discriminate; try congruence;
    try (match goal with H : Some _ = Some _ |- _ => now inversion H end);
    try (match goal with H : _ /\ _ |- _ => destruct H; try discriminate;
                                           try congruence end);
    try (eexists; split; [reflexivity | simpl; tauto]);
    try (exfalso; auto; fail).
Qed.

(** X2.  [editImage] answers with the first part of the first candidate
    that has [inlineData], as a data URI built from that part's MIME type
    and bytes; parts before it without [inlineData] are skipped, and what
    comes after it, in this candidate or in others, is not read. *)
Theorem editImage_returns_first_image (v : Vendor)
    (prompt img mime : string) (reply : GenerateContentResponse)
    (c : Candidate) (cs : list Candidate) (ct : Content)
    (before after : list Part) (part : Part) (blob : Blob) :
  generateContent v (editImage_request prompt img mime) = Ok reply ->
  candidates reply = Some (c :: cs) ->
  content c = Some ct ->
  parts ct = Some (before ++ part :: after) ->
  Forall (fun p => inlineData p = None) before ->
  inlineData part = Some blob ->
  editImage v prompt img mime
  = Ok ("data:" ++ to_string (Genai.mimeType blob) ++ ";base64,"
          ++ to_string (data blob))%string.
Proof.
  intros Hv Hc Hct Hp Hb Hi.
  unfold editImage. rewrite Hv. simpl.
  unfold editImage_extract. rewrite Hc. simpl. rewrite Hct, Hp.
  clear Hv Hc Hct Hp.
  induction Hb as [|p before Hnone _ IH]; simpl.
  - now rewrite Hi.
  - rewrite Hnone. exact IH.
Qed.

(** X3.  [generateSpeech] reads one place only, the first part of the first
    candidate: when that part has no [inlineData] it raises "No audio data
    returned from API", whatever the parts after it carry. *)
Theorem generateSpeech_reads_first_part_only (v : Vendor) (txt : string)
    (reply : GenerateContentResponse) (c : Candidate) (cs : list Candidate)
    (ct : Content) (part : Part) (after : list Part) :
  generateContent v (generateSpeech_request txt) = Ok reply ->
  candidates reply = Some (c :: cs) ->
  content c = Some ct ->
  parts ct = Some (part :: after) ->
  inlineData part = None ->
  generateSpeech v txt = Throw (mkError "No audio data returned from API").
Proof.
  intros Hv Hc Hct Hp Hi.
  unfold generateSpeech. rewrite Hv. simpl.
  unfold generateSpeech_extract, generateSpeech_audio.
  rewrite Hc. simpl. rewrite Hct, Hp. simpl. now rewrite Hi.
Qed.

Lemma editImage_returns_first_image_witness :
  editImage MoreSamples.mixed "sepia" "QUJD" "image/png"
  = Ok "data:image/png;base64,AAAA".
Proof.
  apply (@editImage_returns_first_image MoreSamples.mixed "sepia" "QUJD"
           "image/png" MoreSamples.mixedReply
           {| content :=
                Some {| parts :=
                          Some [{| inlineData := None;
                                   partText := Some "here you are" |};
                                {| inlineData :=
                                     Some {| data := Some "AAAA";
                                             mimeType := Some "image/png" |};
                                   partText := None |}] |};
              groundingChunks := None |}
           []
           {| parts :=
                Some [{| inlineData := None; partText := Some "here you are" |};
                      {| inlineData :=
                           Some {| data := Some "AAAA";
                                   mimeType := Some "image/png" |};
                         partText := None |}] |}
           [{| inlineData := None; partText := Some "here you are" |}]
           []
           {| inlineData := Some {| data := Some "AAAA";
                                    mimeType := Some "image/png" |};
              partText := None |}
           {| data := Some "AAAA"; mimeType := Some "image/png" |});
    try reflexivity.
  repeat constructor.
Defined.

Lemma generateSpeech_reads_first_part_only_witness :
  generateSpeech MoreSamples.mixed "hello"
  = Throw (mkError "No audio data returned from API").
Proof.
  apply (@generateSpeech_reads_first_part_only MoreSamples.mixed "hello"
           MoreSamples.mixedReply
           {| content :=
                Some {| parts :=
                          Some [{| inlineData := None;
                                   partText := Some "here you are" |};
                                {| inlineData :=
                                     Some {| data := Some "AAAA";
                                             mimeType := Some "image/png" |};
                                   partText := None |}] |};
              groundingChunks := None |}
           []
           {| parts :=
                Some [{| inlineData := None; partText := Some "here you are" |};
                      {| inlineData :=
                           Some {| data := Some "AAAA";
                                   mimeType := Some "image/png" |};
                         partText := None |}] |}
           {| inlineData := None; partText := Some "here you are" |}
           [{| inlineData := Some {| data := Some "AAAA";
                                     mimeType := Some "image/png" |};
               partText := None |}]);
    reflexivity.
Defined.

End ServiceMore.

(** ** The shared client *)

Module ClientFacts.
Import Client.

Lemma keys_used_length (calls : list (Adapter * option string)) :
  forall ai, List.length (keys_used calls ai) = List.length calls.
Proof.
  induction calls as [|[a key] calls IH]; intro ai; simpl.
  - reflexivity.
  - destruct (client_of a key ai) as [client ai']. simpl. now rewrite IH.
Qed.

(** Once the module variable holds a client, the adapters that go through
    [getAi] use that client's key. *)
Lemma keys_used_cached (calls : list (Adapter * option string))
    (client : GoogleGenAI) :
  forall i a key k,
    nth_error calls i = Some (a, key) ->
    nth_error (keys_used calls (Some client)) i = Some k ->
    k = if recreates a then key else apiKey client.
Proof.
  induction calls as [|[a0 key0] calls IH]; intros i a key k Hc Hk.
  - destruct i; discriminate Hc.
  - simpl in Hk. unfold client_of, getAi in Hk.
    destruct i as [|i]; simpl in Hc.
    + inversion Hc; subst. destruct (recreates a); simpl in Hk;
        now inversion Hk.
    + destruct (recreates a0); simpl in Hk; eapply IH; eassumption.
Qed.

(** X4.  The adapters that go through [getAi] all talk with the key that the
    environment held at the first such call, however the key changes
    afterwards; [generateVideo] and [checkVideoOperation] each talk with the
    key that is current when they are called. *)
Theorem shared_client_keeps_first_key
    (calls : list (Adapter * option string)) (i : nat) (a : Adapter)
    (key k : option string) :
  nth_error calls i = Some (a, key) ->
  nth_error (keys_used calls None) i = Some k ->
  if recreates a then k = key else first_shared calls = Some k.
Proof.
  revert i. induction calls as [|[a0 key0] calls IH]; intros i Hc Hk.
  - destruct i; discriminate Hc.
  - simpl in Hk |- *. unfold client_of, getAi in Hk.
    destruct (recreates a0) eqn:R0; simpl in Hk.
    + destruct i as [|i]; simpl in Hc, Hk.
      * inversion Hc; subst. rewrite R0. now inversion Hk.
      * exact (IH i Hc Hk).
    + destruct i as [|i]; simpl in Hc, Hk.
      * inversion Hc; subst. rewrite R0. now inversion Hk.
      * pose proof (@keys_used_cached calls {| apiKey := key0 |} i a key k
                      Hc Hk) as E.
        destruct (recreates a); [exact E | now rewrite E].
Qed.

Lemma shared_client_keeps_first_key_witness :
  keys_used [(generateText, Some "old"); (generateVideo, Some "new");
             (generateSpeech, Some "new")] None
  = [Some "old"; Some "new"; Some "old"]
  /\ first_shared [(generateText, Some "old"); (generateVideo, Some "new");
                   (generateSpeech, Some "new")] = Some (Some "old").
Proof.
  split; [reflexivity|].
  exact (@shared_client_keeps_first_key
           [(generateText, Some "old"); (generateVideo, Some "new");
            (generateSpeech, Some "new")]
           2 generateSpeech (Some "new") (Some "old") eq_refl eq_refl).
Defined.

End ClientFacts.

(** ** Citations *)

Module GroundingFacts.
Import Grounding.

(** X5.  A citation is rendered only with a link target: the anchor
    [GroundingChunk] returns always has a non-empty [href] and a non-empty
    label, the label being the title when there is one and the URI
    otherwise.  The [web] source, when present, is the only one looked at:
    if it has no URI nothing is rendered, even when [maps] has one. *)
Theorem citation_needs_a_uri (chunk : Chunk) :
  (forall link, render chunk = Some link ->
     truthy (href link) = true /\ truthy (label link) = true
     /\ exists s,
          (web chunk = Some s \/ (web chunk = None /\ maps chunk = Some s))
          /\ uri s = Some (href link)
          /\ label link = (if truthy_opt (title s) then to_string (title s)
                           else href link))
  /\ (forall s, web chunk = Some s -> truthy_opt (uri s) = false ->
        render chunk = None)
  /\ (web chunk = None -> maps chunk = None -> render chunk = None).
Proof.
  unfold render. split; [|split].
  - intros link H.
    destruct (web chunk) as [s|] eqn:W; [|destruct (maps chunk) as [s|] eqn:M];
      try discriminate H;
      (destruct (uri s) as [u|] eqn:U; simpl in H; [|discriminate H]);
      (destruct (truthy u) eqn:T; [|discriminate H]);
      inversion H; subst; simpl; (split; [exact T|]);
      (split; [destruct (title s) as [t|]; simpl; [destruct (truthy t) eqn:Tt|];
               assumption|]);
      exists s; rewrite U; simpl; repeat split; auto.
  - intros s W U. rewrite W. now rewrite U.
  - intros W M. now rewrite W, M.
Qed.

Lemma citation_needs_a_uri_witness :
  render {| web := Some {| uri := None; title := Some "Cafe" |};
            maps := Some {| uri := Some "https://maps.example/1";
                            title := Some "Cafe" |} |} = None
  /\ exists link,
       render {| web := None;
                 maps := Some {| uri := Some "https://maps.example/1";
                                 title := None |} |} = Some link
       /\ label link = "https://maps.example/1".
Proof.
  split.
  - destruct (@citation_needs_a_uri
                {| web := Some {| uri := None; title := Some "Cafe" |};
                   maps := Some {| uri := Some "https://maps.example/1";
                                   title := Some "Cafe" |} |})
      as (_ & Hshadow & _).
    exact (Hshadow _ eq_refl eq_refl).
  - eexists. split; [reflexivity|].
    destruct (@citation_needs_a_uri
                {| web := None;
                   maps := Some {| uri := Some "https://maps.example/1";
                                   title := None |} |})
      as (Hlink & _ & _).
    destruct (Hlink _ eq_refl) as (_ & _ & s & _ & _ & Hlabel).
    reflexivity.
Defined.

End GroundingFacts.

(** ** The chat view *)

Module ChatViewFacts.
Import Genai Types Platform Chatbot ChatView.

Lemma last_message_none (l : list ChatMessage) :
  last_message l = None -> l = [].
Proof.
  induction l as [|m l IH]; simpl; [reflexivity|].
  destruct l as [|m' l']; [discriminate|].
  intro H. specialize (IH H). discriminate IH.
Qed.

Lemma sent_app (tr1 tr2 : list Effect) : sent (tr1 ++ tr2) = sent tr1 ++ sent tr2.
Proof.
  induction tr1 as [|e tr1 IH]; simpl; [reflexivity|].
  destruct e as [[]| | | | | | | | | | | | | | |]; simpl; now rewrite IH.
Qed.

Lemma user_texts_app (l1 l2 : list ChatMessage) :
  user_texts (l1 ++ l2) = user_texts l1 ++ user_texts l2.
Proof. unfold user_texts. now rewrite filter_app, map_app. Qed.

Lemma user_texts_reply (reply : result Stream) :
  user_texts (reply_messages reply) = [].
Proof.
  destruct reply as [stream|e]; simpl; [|reflexivity].
  now destruct (failure stream).
Qed.

Lemma step_steady (e : Event) (s : System) :
  steady s -> exists s', step e s = Ok s' /\ steady s'.
Proof.
  intros [Hne Hsent]. destruct e as [| t | | reply]; simpl.
  - eexists. split; [reflexivity|]. split; assumption.
  - eexists. split; [reflexivity|]. split; assumption.
  - unfold handleSend_begin. destruct (rejected (ui s)).
    + eexists. split; [reflexivity|]. split; assumption.
    + eexists. split; [reflexivity|]. split; simpl.
      * intros _ H. now apply app_eq_nil in H.
      * rewrite user_texts_app, sent_app, Hsent. reflexivity.
  - destruct (inflight s) as [|m rest].
    + eexists. split; [reflexivity|]. split; assumption.
    + rewrite ChatbotFacts.handleSend_resume_settles. simpl.
      eexists. split; [reflexivity|]. split; simpl.
      * discriminate.
      * now rewrite user_texts_app, user_texts_reply, app_nil_r.
Qed.

Lemma run_steady (es : list Event) :
  forall s, steady s -> exists s', run es s = Ok s' /\ steady s'.
Proof.
  induction es as [|e es IH]; intros s H; simpl.
  - now exists s.
  - destruct (step_steady e H) as (s1 & Hs & H1).
    rewrite Hs. simpl. now apply IH.
Qed.

Lemma boot_steady : steady boot.
Proof. split; [discriminate | reflexivity]. Qed.

(** X6.  Whatever the user and the vendor do, the view can be rendered: the
    test for the three dots, which reads the role of the last message
    whenever [isLoading] holds, never finds the conversation empty, so it
    gives a boolean and does not raise. *)
Theorem typing_indicator_never_raises (es : list Event) :
  exists s b, run es boot = Ok s /\ typingIndicator (ui s) = Ok b.
Proof.
  destruct (@run_steady es boot boot_steady) as (s & Hs & Hne & _).
  exists s. unfold typingIndicator.
  destruct (isLoading (ui s)) eqn:L.
  - destruct (last_message (messages (ui s))) as [m|] eqn:E.
    + eexists. split; [exact Hs | reflexivity].
    + apply last_message_none in E. now destruct (Hne eq_refl).
  - exists false. split; [exact Hs | reflexivity].
Qed.

(** X7.  After any events, the user messages of the conversation are, text
    for text and in the same order, the messages that were passed to
    [sendMessageStream]: nothing the user said is shown without having been
    sent, and nothing is sent twice or without being shown. *)
Theorem user_messages_are_the_sent_ones (es : list Event) :
  exists s,
    run es boot = Ok s
    /\ user_texts (messages (ui s)) = sent (trace (world s)).
Proof.
  destruct (@run_steady es boot boot_steady) as (s & Hs & _ & Hsent).
  now exists s.
Qed.

End ChatViewFacts.

(** ** The submit handlers, whatever the vendor answers *)

Module SubmitFacts.
Import Genai Platform Counting.

Lemma calls_emit (e : Effect) (w : World) :
  calls (trace (emit e w))
  = (calls (trace w) + if is_call e then 1 else 0)%nat.
Proof.
  unfold calls, emit. simpl. rewrite filter_app, length_app. simpl.
  now destruct (is_call e).
Qed.



(** X9.  A picked file that cannot be read never reaches the vendor: the
    edit, analyse and video handlers stop at the failed read with no call
    recorded, the spinner off and their failure message shown (for the video
    view the start message, or the key message if the read error happens to
    say "Requested entity was not found"), and the video handler returns at
    once, with any fuel. *)
Theorem unreadable_file_is_not_sent (env : Env) (v : Vendor) (w : World)
    (file : File) (err : Error) (fuel : nat)
    (e : ImageEditor.State) (a : ImageAnalyzer.State)
    (g : VideoGenerator.State) :
  fileToBase64 env file = Throw err ->
  ImageEditor.originalImage e = Some file ->
  blank (ImageEditor.prompt e) = false ->
  ImageAnalyzer.imageFile a = Some file ->
  blank (ImageAnalyzer.prompt a) = false ->
  VideoGenerator.imageFile g = Some file ->
  blank (VideoGenerator.prompt g) = false ->
  (let r := ImageEditor.handleSubmit env v w e in
   snd r = w
   /\ ImageEditor.isLoading (fst r) = false
   /\ ImageEditor.error (fst r) = "Failed to edit image. Please try again."
   /\ ImageEditor.editedImageUrl (fst r) = "")
  /\ (let r := ImageAnalyzer.handleSubmit env v w a in
      snd r = w
      /\ ImageAnalyzer.isLoading (fst r) = false
      /\ ImageAnalyzer.error (fst r) = "Failed to analyze image."
      /\ ImageAnalyzer.analysis (fst r) = Some "")
  /\ (exists g',
        VideoGenerator.handleSubmit env v fuel w g = Some (g', w)
        /\ VideoGenerator.isLoading g' = false
        /\ VideoGenerator.videoUrl g' = ""
        /\ VideoGenerator.error g'
           = (if VideoGenerator.entity_not_found err
              then VideoGenerator.keyError else VideoGenerator.startFailed)).
Proof.
  intros Hread He Hpe Ha Hpa Hg Hpg. cbv zeta. split; [|split].
  - unfold ImageEditor.handleSubmit, ImageEditor.attempt.
    rewrite Hpe, He, Hread. repeat split.
  - unfold ImageAnalyzer.handleSubmit, ImageAnalyzer.attempt.
    rewrite Hpa, Ha, Hread. repeat split.
  - unfold VideoGenerator.handleSubmit. rewrite Hpg, Hg, Hread.
    eexists. split; [reflexivity|].
    unfold VideoGenerator.catch.
    destruct (VideoGenerator.entity_not_found err); repeat split.
Qed.

Lemma unreadable_file_is_not_sent_witness :
  snd (ImageEditor.handleSubmit MoreSamples.unreadable Samples.chatty
         Samples.world
         {| ImageEditor.prompt := "sepia";
            ImageEditor.originalImage := Some Samples.picture;
            ImageEditor.originalImageUrl := "blob:1";
            ImageEditor.editedImageUrl := "blob:2";
            ImageEditor.isLoading := false; ImageEditor.error := "" |})
  = Samples.world
  /\ exists g',
       VideoGenerator.handleSubmit MoreSamples.unreadable Samples.stuck 0
         Samples.world Samples.filming = Some (g', Samples.world)
       /\ VideoGenerator.error g' = VideoGenerator.startFailed.
Proof.
  destruct (@unreadable_file_is_not_sent MoreSamples.unreadable Samples.chatty
              Samples.world Samples.picture (mkError "NotReadableError") 0
              {| ImageEditor.prompt := "sepia";
                 ImageEditor.originalImage := Some Samples.picture;
                 ImageEditor.originalImageUrl := "blob:1";
                 ImageEditor.editedImageUrl := "blob:2";
                 ImageEditor.isLoading := false; ImageEditor.error := "" |}
              {| ImageAnalyzer.prompt := "what is this?";
                 ImageAnalyzer.imageFile := Some Samples.picture;
                 ImageAnalyzer.imageUrl := "blob:1";
                 ImageAnalyzer.analysis := Some "";
                 ImageAnalyzer.isLoading := false; ImageAnalyzer.error := "" |}
              Samples.filming)
    as ((Hw & _) & _ & _); try reflexivity.
  destruct (@unreadable_file_is_not_sent MoreSamples.unreadable Samples.stuck
              Samples.world Samples.picture (mkError "NotReadableError") 0
              {| ImageEditor.prompt := "sepia";
                 ImageEditor.originalImage := Some Samples.picture;
                 ImageEditor.originalImageUrl := "blob:1";
                 ImageEditor.editedImageUrl := "blob:2";
                 ImageEditor.isLoading := false; ImageEditor.error := "" |}
              {| ImageAnalyzer.prompt := "what is this?";
                 ImageAnalyzer.imageFile := Some Samples.picture;
                 ImageAnalyzer.imageUrl := "blob:1";
                 ImageAnalyzer.analysis := Some "";
                 ImageAnalyzer.isLoading := false; ImageAnalyzer.error := "" |}
              Samples.filming)
    as (_ & _ & g' & Hs & _ & _ & Herr); try reflexivity.
  split; [exact Hw|]. exists g'. split; [exact Hs | exact Herr].
Defined.

End SubmitFacts.

(** ** Speaking *)

Module SpeakingFacts.
Import Genai Platform TextToSpeech Speaking.

(** Brings a grown trace into the shape [old ++ new]. *)
Ltac flatten_trace :=
  unfold emit, alloc; cbn [fst snd trace nextId];
  repeat rewrite <- app_assoc; cbn [app].





(** X11.  A new utterance first stops the source that is playing.  It does
    so before it asks the vendor, so when the request or the decoding then
    fails the old audio has been cut off all the same: nothing is started,
    the ref still names the stopped source, and the failure message is
    shown.  When both succeed, the last thing done is the start of a new
    source, which the ref then names. *)
Theorem speaking_stops_the_previous_source (env : Env) (v : Vendor)
    (w : World) (st : State) (playing : nat) :
  audioSourceRef st = Some playing ->
  blank (text st) = false ->
  let r := handleSpeak env v w st in
  exists rest,
    trace (snd r) = trace w ++ StopSource playing :: rest
    /\ match Service.generateSpeech v (text st) with
       | Throw _ =>
           existsb is_start rest = false
           /\ audioSourceRef (fst r) = Some playing
           /\ error (fst r) = "Failed to generate speech."
       | Ok audio =>
           match decodeAudio env audio with
           | Throw _ =>
               existsb is_start rest = false
               /\ audioSourceRef (fst r) = Some playing
               /\ error (fst r) = "Failed to generate speech."
           | Ok _ =>
               exists source before,
                 rest = before ++ [StartSource source None]
                 /\ audioSourceRef (fst r) = Some source
                 /\ error (fst r) = ""
           end
       end.
Proof.
  intros Hs Hb. cbv zeta. unfold handleSpeak, attempt. rewrite Hb.
  cbn -[Service.generateSpeech]. rewrite Hs.
  destruct (audioContextRef st); cbn -[Service.generateSpeech];
    (destruct (Service.generateSpeech v (text st)) as [audio|]; simpl;
     [destruct (decodeAudio env audio); simpl|]);
    flatten_trace; rewrite ?Hs; eexists; (split; [reflexivity|]);
    try (repeat split; fail);
    eexists; eexists; (split; [|split; reflexivity]);
    match goal with
    | |- ?l = _ ++ [_] =>
        match l with
        | [?a; ?b; ?c; ?d] => change l with ([a; b; c] ++ [d])
        | [?a; ?b; ?c; ?d; ?e] => change l with ([a; b; c; d] ++ [e])
        end
    end; reflexivity.
Qed.

Lemma speaking_stops_the_previous_source_witness :
  exists rest,
    trace (snd (handleSpeak Samples.env Samples.chatty Samples.world
                  (setAudioSourceRef (Some 7%nat) initial)))
    = trace Samples.world ++ StopSource 7 :: rest
    /\ existsb is_start rest = false.
Proof.
  destruct (@speaking_stops_the_previous_source Samples.env Samples.chatty
              Samples.world (setAudioSourceRef (Some 7%nat) initial) 7%nat
              eq_refl eq_refl) as (rest & Ht & Hf).
  exists rest. split; [exact Ht|].
  simpl in Hf. exact (proj1 Hf).
Defined.

End SpeakingFacts.

(** ** More on the live session *)

Module LiveAgentMore.
Import Genai Platform LiveAgent.

(** X12.  The status that [onerror] and [onclose] write is overwritten in
    the same callback: both go on into [stopSession], which writes the idle
    status, so the cells never hold "Connection error. Please try again." or
    "Connection closed." once the callback is done.  The two differ in one
    thing: after an error the channel is asked to close, after a close it is
    not asked again. *)
Theorem connection_status_is_overwritten (w : World) (st : State) :
  status (fst (onerror w st)) = "Not connected. Press Start to talk."
  /\ status (fst (onclose w st)) = "Not connected. Press Start to talk."
  /\ fst (onerror w st) = fst (onclose w st)
  /\ isSessionActive (fst (onerror w st)) = false
  /\ sessionPromiseRef (fst (onerror w st)) = None
  /\ (forall session, sessionPromiseRef st = Some session ->
        In (CloseSession session) (trace (snd (onerror w st))))
  /\ (forall session, In (CloseSession session) (trace (snd (onclose w st))) ->
        In (CloseSession session) (trace w)).
Proof.
  unfold onerror, onclose, stopSession.
  cbn [sessionPromiseRef scriptProcessorRef mediaStreamSourceRef
       audioContextRef outputAudioContextRef audioQueueRef setStatus
       setAudioQueueRef setIsSessionActive setSessionPromiseRef fst snd
       status isSessionActive].
  repeat split.
  - intros session H. rewrite H.
    destruct (scriptProcessorRef st), (mediaStreamSourceRef st),
      (audioContextRef st), (outputAudioContextRef st);
      unfold emits, emit; simpl; repeat rewrite in_app_iff; simpl; tauto.
  - intros session H.
    destruct (sessionPromiseRef st), (scriptProcessorRef st),
      (mediaStreamSourceRef st), (audioContextRef st),
      (outputAudioContextRef st);
      unfold emits, emit in H; simpl in H;
      repeat rewrite in_app_iff in H; simpl in H;
      repeat match goal with
             | H : _ \/ _ |- _ => destruct H as [H|H]
             | H : In _ (map StopSource _) |- _ =>
                 apply LiveAgentFacts.in_stops in H; destruct H as (x & H)
             end;
      try assumption; try discriminate; try contradiction.
Qed.

Lemma connection_status_is_overwritten_witness :
  status (fst (onerror (snd Samples.playing) (fst Samples.playing)))
  = "Not connected. Press Start to talk."
  /\ In (CloseSession 3) (trace (snd (onerror (snd Samples.playing)
                                        (fst Samples.playing)))).
Proof.
  destruct (connection_status_is_overwritten (snd Samples.playing)
              (fst Samples.playing)) as (Hs & _ & _ & _ & _ & Hc & _).
  split; [exact Hs|]. apply Hc. reflexivity.
Defined.

(** [Math.max] gives its first argument back when the second is no
    larger. *)
Lemma Qmax_left (x y : Q) : (y <= x)%Q -> Qmax x y = x.
Proof.
  intro H. unfold Qmax, GenericMinMax.gmax.
  destruct (x ?= y)%Q eqn:C; try reflexivity.
  apply Qlt_alt in C. now apply Qle_not_lt in H.
Qed.

Lemma onmessage_schedules (env : Env) (now : Q) (m : LiveServerMessage)
    (w : World) (st : State) (a : option string) (ctx : nat)
    (buf : AudioBuffer) :
  audio_of m = Ok a -> truthy_opt a = true ->
  outputAudioContextRef st = Some ctx ->
  decodeAudio env (to_string a) = Ok buf ->
  In (StartSource (nextId w) (Some (Qmax (nextStartTimeRef st) now)))
     (trace (snd (fst (onmessage env now m w st)))).
Proof.
  intros Ha Ht Ho Hd. unfold onmessage. rewrite Ha, Ht, Ho.
  destruct (@LiveAgentFacts.schedule_decoded env now (to_string a) ctx w st
              buf Hd) as (Hr & _ & _ & Htr).
  destruct (schedule env now (to_string a) ctx w st) as [[st1 w1] raised].
  cbn [fst snd] in Hr, Htr. subst raised.
  destruct (interrupted_of m); cbn [fst snd].
  - unfold flush, emits. simpl. apply in_or_app. left.
    rewrite Htr. apply in_or_app. right. simpl. auto.
  - rewrite Htr. apply in_or_app. right. simpl. auto.
Qed.

(** X13.  Neither [stopSession] nor [startSession] touches the playback
    cursor, so a session that is stopped and started again inherits the
    cursor of the one before.  The first chunk of the new session is then
    started at the larger of the old cursor and the new context's clock: if
    the clock has not yet reached the old cursor, at the old cursor. *)
Theorem cursor_survives_restart (env : Env) (w : World) (st : State)
    (shouldClose : bool) (now : Q) (m : LiveServerMessage)
    (a : option string) (buf : AudioBuffer) :
  audio_of m = Ok a -> truthy_opt a = true ->
  decodeAudio env (to_string a) = Ok buf ->
  let stopped := stopSession shouldClose w st in
  let restarted := startSession (Ok tt) (snd stopped) (fst stopped) in
  let r := onmessage env now m (snd restarted) (fst restarted) in
  nextStartTimeRef (fst stopped) = nextStartTimeRef st
  /\ nextStartTimeRef (fst restarted) = nextStartTimeRef st
  /\ In (StartSource (nextId (snd restarted))
           (Some (Qmax (nextStartTimeRef st) now)))
        (trace (snd (fst r)))
  /\ ((now <= nextStartTimeRef st)%Q ->
      In (StartSource (nextId (snd restarted)) (Some (nextStartTimeRef st)))
         (trace (snd (fst r)))).
Proof.
  intros Ha Ht Hd. cbv zeta.
  assert (Hin : In (StartSource
                      (nextId (snd (startSession (Ok tt)
                                      (snd (stopSession shouldClose w st))
                                      (fst (stopSession shouldClose w st)))))
                      (Some (Qmax (nextStartTimeRef st) now)))
                   (trace (snd (fst (onmessage env now m
                      (snd (startSession (Ok tt)
                              (snd (stopSession shouldClose w st))
                              (fst (stopSession shouldClose w st))))
                      (fst (startSession (Ok tt)
                              (snd (stopSession shouldClose w st))
                              (fst (stopSession shouldClose w st))))))))).
  { exact (@onmessage_schedules env now m
             (snd (startSession (Ok tt) (snd (stopSession shouldClose w st))
                     (fst (stopSession shouldClose w st))))
             (fst (startSession (Ok tt) (snd (stopSession shouldClose w st))
                     (fst (stopSession shouldClose w st))))
             a _ buf Ha Ht eq_refl Hd). }
  repeat split.
  - exact Hin.
  - intro Hle. rewrite (Qmax_left Hle) in Hin. exact Hin.
Qed.

Lemma cursor_survives_restart_witness :
  let stopped := stopSession true (snd Samples.playing) (fst Samples.playing) in
  let restarted := startSession (Ok tt) (snd stopped) (fst stopped) in
  nextStartTimeRef (fst restarted) = nextStartTimeRef (fst Samples.playing)
  /\ In (StartSource (nextId (snd restarted))
           (Some (nextStartTimeRef (fst Samples.playing))))
        (trace (snd (fst (onmessage Samples.env 0%Q
                            (Samples.audioMessage false)
                            (snd restarted) (fst restarted))))).
Proof.
  destruct (@cursor_survives_restart Samples.env (snd Samples.playing)
              (fst Samples.playing) true 0%Q (Samples.audioMessage false)
              (Some "AAAA") {| length := 24000; sampleRate := 24000 |}
              eq_refl eq_refl eq_refl) as (_ & Hc & _ & Hin).
  split; [exact Hc|]. apply Hin. vm_compute. discriminate.
Defined.

(** A teardown that finds the queue empty and has no channel to close only
    disconnects the nodes and closes the contexts. *)
Lemma stopSession_again (b : bool) (w : World) (st : State)
    (input output : nat) :
  audioQueueRef st = [] ->
  b = false \/ sessionPromiseRef st = None ->
  audioContextRef st = Some input ->
  outputAudioContextRef st = Some output ->
  exists nodes,
    trace (snd (stopSession b w st))
    = trace w
      ++ map DisconnectNode nodes ++ [CloseContext input; CloseContext output].
Proof.
  intros Hq Hb Hi Ho. unfold stopSession.
  cbn [outputAudioContextRef setAudioQueueRef]. rewrite Hq, Hi, Ho.
  assert (Hw : match sessionPromiseRef st with
               | Some session => if b then emit (CloseSession session) w else w
               | None => w
               end = w).
  { destruct Hb as [Hb|Hb]; rewrite Hb; [now destruct (sessionPromiseRef st)
                                         | reflexivity]. }
  rewrite Hw.
  destruct (scriptProcessorRef st) as [p|],
    (mediaStreamSourceRef st) as [s|];
    unfold emits, emit; cbn [trace nextId map snd];
    repeat rewrite <- app_assoc; cbn [app];
    [exists [p; s] | exists [p] | exists [s] | exists []]; reflexivity.
Qed.

(** X14.  A socket error is followed by the socket's close, so the session
    is torn down twice.  The second teardown changes no cell, asks for no
    second close of the channel and has no source left to stop, but the refs
    to the two contexts were never cleared: both contexts are closed a
    second time. *)
Theorem error_then_close_closes_contexts_twice (w : World) (st : State)
    (input output : nat) :
  audioContextRef st = Some input ->
  outputAudioContextRef st = Some output ->
  let failed := onerror w st in
  let shut := onclose (snd failed) (fst failed) in
  fst shut = fst failed
  /\ (exists before, trace (snd failed)
                     = trace w ++ before ++ [CloseContext output]
                     /\ In (CloseContext input) before)
  /\ exists nodes,
       trace (snd shut)
       = trace (snd failed)
         ++ map DisconnectNode nodes ++ [CloseContext input; CloseContext output].
Proof.
  intros Hi Ho. cbv zeta. split; [reflexivity|]. split.
  - unfold onerror, stopSession.
    cbn [sessionPromiseRef scriptProcessorRef mediaStreamSourceRef
         audioContextRef outputAudioContextRef audioQueueRef setStatus
         setAudioQueueRef setIsSessionActive setSessionPromiseRef fst snd].
    rewrite Hi, Ho.
    exists (match sessionPromiseRef st with
            | Some session => [CloseSession session]
            | None => []
            end
            ++ match scriptProcessorRef st with
               | Some node => [DisconnectNode node]
               | None => []
               end
            ++ match mediaStreamSourceRef st with
               | Some node => [DisconnectNode node]
               | None => []
               end
            ++ [CloseContext input] ++ map StopSource (audioQueueRef st)).
    split.
    + destruct (sessionPromiseRef st), (scriptProcessorRef st),
        (mediaStreamSourceRef st);
        unfold emits, emit; cbn [trace nextId map];
        repeat rewrite <- app_assoc; cbn [app]; reflexivity.
    + repeat rewrite in_app_iff. simpl. tauto.
  - unfold onclose at 1.
    apply stopSession_again; [reflexivity | now left | exact Hi | exact Ho].
Qed.

Lemma error_then_close_closes_contexts_twice_witness :
  let failed := onerror (snd Samples.playing) (fst Samples.playing) in
  let shut := onclose (snd failed) (fst failed) in
  exists nodes,
    trace (snd shut)
    = trace (snd failed)
      ++ map DisconnectNode nodes ++ [CloseContext 1; CloseContext 2].
Proof.
  destruct (@error_then_close_closes_contexts_twice (snd Samples.playing)
              (fst Samples.playing) 1%nat 2%nat eq_refl eq_refl)
    as (_ & _ & H).
  exact H.
Defined.

End LiveAgentMore.

(** ** The samples sent to the channel *)

Module PcmFacts.
Import Pcm.

Lemma truncate_scaled (n : Z) (d : positive) :
  truncate ((n # d) * 32768)%Q = Z.quot (n * 32768) (Zpos d).
Proof.
  unfold truncate, Qmult. simpl. now rewrite Pos.mul_1_r.
Qed.

Lemma toInt16_in_range (z : Z) :
  (-32768 <= z <= 32767)%Z -> toInt16 z = z.
Proof.
  intro H. unfold toInt16.
  destruct (Z.ltb_spec (z mod 65536) 32768) as [L|L];
    Z.div_mod_to_equations; lia.
Qed.

Lemma toInt16_wraps (z : Z) :
  (32768 <= z <= 65535)%Z -> toInt16 z = (z - 65536)%Z.
Proof.
  intro H. unfold toInt16.
  destruct (Z.ltb_spec (z mod 65536) 32768) as [L|L];
    Z.div_mod_to_equations; lia.
Qed.

(** X15.  A microphone sample from -1 up to, but not including, 1 is sent
    as itself times 32768, rounded towards zero, a value from -32768 to
    32767.  A sample from 1 up to 2, the full-scale sample 1.0 among them,
    does not fit sixteen bits and wraps around: it is sent as that product
    less 65536, a negative value. *)
Theorem sample_wraps_at_full_scale (x : Q) :
  ((-1 <= x)%Q -> (x < 1)%Q ->
   sample x = truncate (x * 32768)%Q /\ (-32768 <= sample x <= 32767)%Z)
  /\ ((1 <= x)%Q -> (x < 2)%Q ->
      sample x = (truncate (x * 32768)%Q - 65536)%Z
      /\ (-32768 <= sample x < 0)%Z).
Proof.
  destruct x as [n d]. unfold sample. rewrite truncate_scaled.
  unfold Qle, Qlt. simpl.
  split; intros Hlo Hhi.
  - assert (R : (-32768 <= Z.quot (n * 32768) (Zpos d) <= 32767)%Z)
      by (Z.to_euclidean_division_equations; nia).
    rewrite (toInt16_in_range R). split; [reflexivity | exact R].
  - assert (R : (32768 <= Z.quot (n * 32768) (Zpos d) <= 65535)%Z)
      by (Z.to_euclidean_division_equations; nia).
    rewrite (toInt16_wraps R). split; [reflexivity | lia].
Qed.

Lemma sample_wraps_at_full_scale_witness :
  sample (1 # 2) = 16384%Z /\ sample 1 = (-32768)%Z.
Proof.
  destruct (@sample_wraps_at_full_scale (1 # 2)) as [Hin _].
  destruct (@sample_wraps_at_full_scale 1) as [_ Hout].
  destruct Hin as [Hi _]; [discriminate | reflexivity |].
  destruct Hout as [Ho _]; [discriminate | reflexivity |].
  split; [rewrite Hi | rewrite Ho]; reflexivity.
Defined.

End PcmFacts.

(** ** More on video generation *)

Module VideoMore.
Import Genai Platform VideoGenerator KeyGate.

Lemma step_without_key (e : Event) (st : State) (w : World) :
  apiKeySelected st = false -> unaided e = true ->
  step e (st, w) = Some (st, w).
Proof.
  intros Hk Hu. destruct e as [a | a | f url | p | env v fuel]; simpl;
    rewrite ?Hk; try reflexivity;
    destruct a; try discriminate Hu; reflexivity.
Qed.

(** X16.  On a page that offers no [aistudio] object the video view never
    leaves its key screen: neither the check at mount nor the key button can
    set [apiKeySelected], the generator's controls are never rendered, and
    so, whatever is tried, no cell changes and nothing is sent to the
    vendor.  Where the page does offer it, showing the key dialog is enough:
    [apiKeySelected] is set even if the page still reports that no key is
    selected. *)
Theorem no_key_no_video (es : list Event) (w : World) (st : State)
    (a : AiStudio) :
  apiKeySelected st = false ->
  forallb unaided es = true ->
  run es (st, w) = Some (st, w)
  /\ (openSelectKey a = Ok tt ->
      apiKeySelected (handleSelectKey (Some a) st) = true
      /\ apiKeySelected (checkKey (Some a) (handleSelectKey (Some a) st))
         = true).
Proof.
  intros Hk Hes. split.
  - induction es as [|e es IH]; simpl in *.
    + reflexivity.
    + apply andb_prop in Hes. destruct Hes as [He Hes].
      change (match step e (st, w) with
              | Some s' => run es s'
              | None => None
              end = Some (st, w)).
      rewrite (step_without_key e st w Hk He). exact (IH Hes).
  - intro Ho. unfold handleSelectKey, checkKey. rewrite Ho. simpl.
    split; [reflexivity|]. now destruct (hasSelectedApiKey a) as [[]|].
Qed.

Lemma no_key_no_video_witness :
  run [CheckKey None; SelectKey None; TypePrompt "a cat surfing";
       PickFile Samples.picture "blob:1";
       Submit Samples.env (Samples.slow ["https://v.example/1?alt=media"]) 5]
    (initial, Samples.world)
  = Some (initial, Samples.world)
  /\ apiKeySelected (handleSelectKey (Some MoreSamples.undecided) initial)
     = true.
Proof.
  destruct (@no_key_no_video
              [CheckKey None; SelectKey None; TypePrompt "a cat surfing";
               PickFile Samples.picture "blob:1";
               Submit Samples.env
                 (Samples.slow ["https://v.example/1?alt=media"]) 5]
              Samples.world initial MoreSamples.undecided eq_refl eq_refl)
    as (Hrun & Hopen).
  split; [exact Hrun|]. exact (proj1 (Hopen eq_refl)).
Defined.

(** X17.  When the start is accepted, the job completes within [k]
    refreshes, the finished handle names a video and the download succeeds,
    the video view ends with the spinner off, no error, the object URL of
    the download in [videoUrl] and the key choice untouched.  The download
    is the last call made, after at most [k] refreshes, and it goes to the
    video's URI followed by "&key=" and the API key. *)
Theorem finished_video_is_shown (env : Env) (v : Vendor) (fuel k : nat)
    (w : World) (st : State) (file : File) (base64 objectUrl : string)
    (op op' : VeoOperation) :
  blank (prompt st) = false ->
  imageFile st = Some file ->
  fileToBase64 env file = Ok base64 ->
  Service.generateVideo v (prompt st) base64 (fileType file) (aspectRatio st)
  = Ok op ->
  (k < fuel)%nat ->
  ending v 0 op k = Completed op' ->
  truthy_opt (video_uri op') = true ->
  fetchBlob env (downloadUrl env op') = Ok objectUrl ->
  exists st' w',
    handleSubmit env v fuel w st
    = Some (st', emit (Fetch (downloadUrl env op')) w')
    /\ (refreshes (trace w') <= refreshes (trace w) + k)%nat
    /\ videoUrl st' = objectUrl
    /\ isLoading st' = false
    /\ error st' = ""
    /\ apiKeySelected st' = apiKeySelected st
    /\ operationRef st' = Some op'
    /\ downloadUrl env op'
       = (to_string (video_uri op') ++ "&key=" ++ to_string (API_KEY env))%string.
Proof.
  intros Hb Hf H64 Hs Hk He Hu Hfetch. unfold handleSubmit.
  rewrite Hb, Hf, H64.
  cbn [prompt aspectRatio setIsLoading setVideoUrl setError setLoadingMessage].
  rewrite Hs.
  match goal with
  | |- context [pollOperation env v fuel op ?w1 ?st1] =>
      pose proof (@VideoGeneratorFacts.pollOperation_ending env v op w1 st1
                    k fuel Hk) as H;
      assert (R : refreshes (trace w1) = refreshes (trace w))
        by (rewrite VideoGeneratorFacts.refreshes_emit; lia)
  end.
  rewrite He in H. destruct H as (m & w' & Hp & Hd & Hr). rewrite Hp.
  unfold deliver. cbn [operationRef setOperationRef]. rewrite Hd, Hu.
  unfold downloadUrl in Hfetch |- *. rewrite Hfetch.
  do 2 eexists. split; [reflexivity|].
  split; [lia|]. repeat split.
Qed.

Lemma finished_video_is_shown_witness :
  exists st' w',
    handleSubmit Samples.env (Samples.slow ["https://v.example/1?alt=media"])
      5 Samples.world Samples.filming
    = Some (st', emit (Fetch "https://v.example/1?alt=media&key=key") w')
    /\ videoUrl st' = "blob:video" /\ error st' = "".
Proof.
  destruct (@finished_video_is_shown Samples.env
              (Samples.slow ["https://v.example/1?alt=media"]) 5 2
              Samples.world Samples.filming Samples.picture "QUJD"
              "blob:video" Samples.pending
              (Samples.finished ["https://v.example/1?alt=media"]))
    as (st' & w' & Hs & _ & Hv & _ & He & _);
    try reflexivity; [lia|].
  exists st', w'. split; [exact Hs|]. split; [exact Hv | exact He].
Defined.

End VideoMore.

(** ** More on the live session: an interrupt with audio *)

Module InterruptFacts.
Import Genai Platform LiveAgent.

Lemma in_queue_add (x : nat) (q : list nat) : In x (queue_add x q).
Proof.
  unfold queue_add. destruct (existsb (Nat.eqb x) q) eqn:E.
  - apply existsb_exists in E. destruct E as (y & Hy & Heq).
    apply Nat.eqb_eq in Heq. now subst y.
  - apply in_or_app. right. simpl. auto.
Qed.

(** X18.  When one message both carries audio and interrupts, its own chunk
    is scheduled first and flushed with the rest: the source is started and
    then stopped within the same handler, the queue ends empty and the
    cursor at zero, so the audio of an interrupting message is never
    heard. *)
Theorem interrupting_audio_is_flushed (env : Env) (now : Q)
    (m : LiveServerMessage) (w : World) (st : State) (a : option string)
    (ctx : nat) (buf : AudioBuffer) :
  audio_of m = Ok a -> truthy_opt a = true ->
  outputAudioContextRef st = Some ctx ->
  decodeAudio env (to_string a) = Ok buf ->
  interrupted_of m = true ->
  let r := onmessage env now m w st in
  exists stops,
    trace (snd (fst r))
    = trace w
      ++ [CreateBufferSource ctx (nextId w); ConnectNode (nextId w) None;
          StartSource (nextId w) (Some (Qmax (nextStartTimeRef st) now))]
      ++ map StopSource stops
    /\ In (nextId w) stops
    /\ (forall source, In source (audioQueueRef st) -> In source stops)
    /\ audioQueueRef (fst (fst r)) = []
    /\ nextStartTimeRef (fst (fst r)) = 0%Q
    /\ snd r = None.
Proof.
  intros Ha Ht Ho Hd Hi. cbv zeta. unfold onmessage. rewrite Ha, Ht, Ho.
  destruct (@LiveAgentFacts.schedule_decoded env now (to_string a) ctx w st
              buf Hd) as (Hr & _ & Hq & Htr).
  destruct (schedule env now (to_string a) ctx w st) as [[st1 w1] raised].
  cbn [fst snd] in Hr, Hq, Htr. subst raised. rewrite Hi.
  unfold flush, emits. cbn [fst snd trace audioQueueRef nextStartTimeRef
                            setAudioQueueRef setNextStartTimeRef].
  exists (audioQueueRef st1). rewrite Htr, Hq.
  split; [now rewrite <- app_assoc|].
  split; [apply in_queue_add|].
  split; [|repeat split].
  intros source H. unfold queue_add.
  destruct (existsb _ _); [exact H | apply in_or_app; now left].
Qed.

Lemma interrupting_audio_is_flushed_witness :
  let r := onmessage Samples.env 2%Q (Samples.audioMessage true)
             (snd Samples.playing) (fst Samples.playing) in
  exists stops,
    In 7%nat stops /\ In 6%nat stops
    /\ audioQueueRef (fst (fst r)) = [].
Proof.
  destruct (@interrupting_audio_is_flushed Samples.env 2%Q
              (Samples.audioMessage true) (snd Samples.playing)
              (fst Samples.playing) (Some "AAAA") 2%nat
              {| length := 24000; sampleRate := 24000 |}
              eq_refl eq_refl eq_refl eq_refl eq_refl)
    as (stops & _ & Hnew & Hold & Hq & _).
  exists stops. split; [exact Hnew|]. split; [|exact Hq].
  apply Hold. simpl. auto.
Defined.

End InterruptFacts.

(** ** More on location grounding *)

Module TextGeneratorMore.
Import Genai Platform TextGenerator Counting.

Lemma asks_emit (e : Effect) (w : World) :
  asks (trace (emit e w)) = (asks (trace w) + if is_ask e then 1 else 0)%nat.
Proof.
  unfold asks, emit. simpl. rewrite filter_app, length_app. simpl.
  now destruct (is_ask e).
Qed.

Lemma step_with_position (v : Vendor) (e : Event) (st : State) (w : World) :
  position st <> None ->
  position (fst (step v e (st, w))) <> None
  /\ asks (trace (snd (step v e (st, w)))) = asks (trace w)
  /\ (is_found e = false ->
      position (fst (step v e (st, w))) = position st).
Proof.
  intro Hp. destruct (position st) as [pos|] eqn:P; [clear Hp|contradiction].
  destruct e as [p | b | pos' | | ]; simpl.
  - rewrite ?P. repeat split; auto. discriminate.
  - unfold setUseMaps.
    destruct (Bool.eqb b (useMaps st)); simpl; rewrite ?P.
    + repeat split; auto. discriminate.
    + unfold locationEffect. simpl. rewrite ?P.
      destruct b; repeat split; auto; discriminate.
  - unfold onPosition, locationEffect. simpl.
    destruct (useMaps st); repeat split; try discriminate.
  - rewrite ?P. repeat split; auto. discriminate.
  - rewrite TextGeneratorFacts.handleSubmit_position, ?P.
    split; [discriminate|]. split; [|reflexivity].
    destruct (TextGeneratorFacts.handleSubmit_trace v w st) as [E|E].
    + now rewrite E.
    + unfold asks. rewrite E, filter_app, length_app. simpl. lia.
Qed.

(** X19.  Once the view holds a position it never asks the platform for one
    again, however the Maps box is ticked and unticked and whatever is
    submitted: the position is kept for the life of the view, and it changes
    only if an answer to an earlier question arrives. *)
Theorem position_is_asked_for_once (v : Vendor) (es : list Event)
    (w : World) (st : State) :
  position st <> None ->
  let r := run v es (st, w) in
  asks (trace (snd r)) = asks (trace w)
  /\ position (fst r) <> None
  /\ (forallb (fun e => negb (is_found e)) es = true ->
      position (fst r) = position st).
Proof.
  revert st w. induction es as [|e es IH]; intros st w Hp; cbv zeta.
  - simpl. auto.
  - change (run v (e :: es) (st, w)) with (run v es (step v e (st, w))).
    destruct (@step_with_position v e st w Hp) as (Hp1 & Ha1 & Hk1).
    destruct (step v e (st, w)) as [st1 w1]. cbn [fst snd] in Hp1, Ha1, Hk1.
    destruct (IH st1 w1 Hp1) as (Ha & Hp2 & Hk).
    split; [now rewrite Ha|]. split; [exact Hp2|].
    intro Hes. simpl in Hes. apply andb_prop in Hes. destruct Hes as [He Hes].
    apply negb_true_iff in He. rewrite (Hk Hes). exact (Hk1 He).
Qed.

Lemma position_is_asked_for_once_witness :
  let here := {| latitude := 52%Q; longitude := 13%Q |} in
  let r := run Samples.chatty
             [SetUseMaps false; SetUseMaps true; SetPrompt "cafes"; Submit]
             (onPosition here Samples.world
                (fst (setUseMaps true Samples.world initial))) in
  asks (trace (snd r)) = 0%nat /\ position (fst r) = Some here.
Proof.
  destruct (@position_is_asked_for_once Samples.chatty
              [SetUseMaps false; SetUseMaps true; SetPrompt "cafes"; Submit]
              Samples.world
              (setPosition (Some {| latitude := 52%Q; longitude := 13%Q |})
                 (fst (setUseMaps true Samples.world initial))))
    as (Ha & _ & Hk); [discriminate|].
  split; [exact Ha | exact (Hk eq_refl)].
Defined.

End TextGeneratorMore.
